(** * The Lex currency-conversion handler (13-AWS/.../Solved/lambda_function.py)

    A shallow embedding of the handler that validates the [birthday] and
    [cadAmount] slots of a [convertCAD] intent and converts dollars to
    bitcoins, together with the Python library functions it relies on:
    [float], [round], the [repr] of a float used by [str.format],
    [datetime.strptime] and [relativedelta].

    Conventions.
    - A Python [str] is a Rocq [string]; its characters are read as the code
      points 0..255.
    - A Python [float] is a [spec_float] at precision 53 and maximal
      exponent 1024 (IEEE binary64), with the operations of [SpecFloat].
    - The slot dictionary of a request is a mutable object: it lives in a
      heap and the request, the local variable [slots] and the responses
      refer to it by its location.
    - [datetime.now()] and the reply of the price service are inputs of the
      model (the record [World]). *)

From Stdlib Require Import ZArith String Ascii List Lia.
From Stdlib Require Import Floats.SpecFloat.
From stdpp Require Import gmap strings.

Local Open Scope string_scope.
Local Open Scope Z_scope.

(** ** Characters and digit strings *)

Definition code (c : ascii) : Z := Z.of_N (N_of_ascii c).

Definition is_digit (c : ascii) : bool := (48 <=? code c) && (code c <=? 57).

Definition digit_val (c : ascii) : Z := code c - 48.

(** [Py_ISSPACE]: the ASCII white space characters. *)
Definition is_space (c : ascii) : bool :=
  ((9 <=? code c) && (code c <=? 13)) || (code c =? 32).

(** [Py_TOLOWER] on ASCII letters. *)
Definition to_lower (c : ascii) : ascii :=
  if (65 <=? code c) && (code c <=? 90)
  then ascii_of_N (Z.to_N (code c + 32)) else c.

(** The longest prefix of characters satisfying [p], and the rest. *)
Fixpoint span (p : ascii -> bool) (s : string) : string * string :=
  match s with
  | EmptyString => (EmptyString, EmptyString)
  | String c t =>
      if p c then let '(a, b) := span p t in (String c a, b)
      else (EmptyString, s)
  end.

Fixpoint drop_while (p : ascii -> bool) (s : string) : string :=
  match s with
  | EmptyString => EmptyString
  | String c t => if p c then drop_while p t else s
  end.

Fixpoint string_rev_acc (s acc : string) : string :=
  match s with
  | EmptyString => acc
  | String c t => string_rev_acc t (String c acc)
  end.

Definition string_rev (s : string) : string := string_rev_acc s EmptyString.

(** The value of a string of decimal digits, most significant first. *)
Fixpoint int_of_digits_acc (s : string) (acc : Z) : Z :=
  match s with
  | EmptyString => acc
  | String c t => int_of_digits_acc t (10 * acc + digit_val c)
  end.

Definition int_of_digits (s : string) : Z := int_of_digits_acc s 0.

Definition strlen (s : string) : Z := Z.of_nat (String.length s).

(** ** Python floats *)

Module PyFloat.

Definition prec : Z := 53.
Definition emax : Z := 1024.

Definition nan : spec_float := S754_nan.
Definition zero : spec_float := S754_zero false.

Definition is_zero (x : spec_float) : bool :=
  match x with S754_zero _ => true | _ => false end.

(** [x <= y] on floats: false as soon as one side is a NaN. *)
Definition le (x y : spec_float) : bool := SFleb x y.
Definition lt (x y : spec_float) : bool := SFltb x y.

(** The binary64 value nearest to [(-1)^s * m * 10^e] (ties to even), as
    [strtod] computes it. *)
Definition of_decimal (s : bool) (m : Z) (e : Z) : spec_float :=
  match m with
  | Zpos p =>
      if 0 <=? e then binary_round prec emax s (Z.to_pos (Zpos p * 10 ^ e)) 0
      else
        let '(mz, ez, lz) :=
          SFdiv_core_binary prec emax (Zpos p) 0 (10 ^ (- e)) 0 in
        binary_round_aux prec emax s mz ez lz
  | _ => S754_zero s
  end.

(** *** [float(str)] *)

(** [_PyUnicode_TransformDecimalAndSpaceToASCII] on code points below 256:
    the two non-ASCII white space characters (NEL, NBSP) become a space;
    any other character from 127 on becomes '?' and ends the string. *)
Fixpoint to_ascii_text (s : string) : string :=
  match s with
  | EmptyString => EmptyString
  | String c t =>
      if code c <? 127 then String c (to_ascii_text t)
      else if (code c =? 133) || (code c =? 160) then String " " (to_ascii_text t)
      else "?"
  end.

(** [_Py_string_to_number_with_underscores]: an underscore is allowed only
    between two digits; the underscores are then removed. [prev] is the
    previous character (NUL at the start). *)
Fixpoint strip_underscores (prev : ascii) (s : string) : option string :=
  match s with
  | EmptyString => if Ascii.eqb prev "_" then None else Some EmptyString
  | String c t =>
      if Ascii.eqb c "_" then
        if is_digit prev then strip_underscores c t else None
      else
        if Ascii.eqb prev "_" && negb (is_digit c) then None
        else option_map (String c) (strip_underscores c t)
  end.

Definition strip (s : string) : string :=
  string_rev (drop_while is_space (string_rev (drop_while is_space s))).

Definition read_sign (s : string) : bool * string :=
  match s with
  | String "-" t => (true, t)
  | String "+" t => (false, t)
  | _ => (false, s)
  end.

(** The exponent part of [_Py_dg_strtod]: consumed only when it holds at
    least one digit. Returns the exponent and the unread rest. *)
Definition read_exponent (s : string) : Z * string :=
  match s with
  | String c t =>
      if Ascii.eqb (to_lower c) "e" then
        let '(neg, t1) := read_sign t in
        let '(ds, rest) := span is_digit t1 in
        match ds with
        | EmptyString => (0, s)
        | _ => ((if neg then - int_of_digits ds else int_of_digits ds), rest)
        end
      else (0, s)
  | EmptyString => (0, s)
  end.

(** [_Py_dg_strtod]: [sign] digits [. digits] [exponent], with at least one
    digit before the exponent. [None] when nothing could be converted. *)
Definition strtod (s : string) : option (spec_float * string) :=
  let '(neg, s1) := read_sign s in
  let '(ip, s2) := span is_digit s1 in
  let '(fp, s3) :=
    match s2 with
    | String "." t => span is_digit t
    | _ => (EmptyString, s2)
    end in
  match ip ++ fp with
  | EmptyString => None
  | ds =>
      let '(e, rest) := read_exponent s3 in
      Some (of_decimal neg (int_of_digits ds) (e - strlen fp), rest)
  end.

(** [case_insensitive_match]: [s] starts with the lower-case word [w]. *)
Fixpoint match_word (w s : string) : option string :=
  match w, s with
  | EmptyString, _ => Some s
  | String a w', String c s' =>
      if Ascii.eqb (to_lower c) a then match_word w' s' else None
  | String _ _, EmptyString => None
  end.

(** [_Py_parse_inf_or_nan]. *)
Definition parse_inf_or_nan (s : string) : option (spec_float * string) :=
  let '(neg, s1) := read_sign s in
  match match_word "inf" s1 with
  | Some r =>
      match match_word "inity" r with
      | Some r' => Some (S754_infinity neg, r')
      | None => Some (S754_infinity neg, r)
      end
  | None =>
      match match_word "nan" s1 with
      | Some r => Some (S754_nan, r)
      | None => None
      end
  end.

(** [float(s)] for a string [s]: [None] stands for [ValueError]. *)
Definition of_string (s : string) : option spec_float :=
  match strip_underscores "000" (to_ascii_text s) with
  | None => None
  | Some u =>
      match strip u with
      | EmptyString => None
      | t =>
          match strtod t with
          | Some (x, EmptyString) => Some x
          | Some (_, String _ _) => None
          | None =>
              match parse_inf_or_nan t with
              | Some (x, EmptyString) => Some x
              | _ => None
              end
          end
      end
  end.

(** *** Division *)

(** [x / y] raises [ZeroDivisionError] on a zero divisor; [None] stands for
    that exception. *)
Definition truediv (x y : spec_float) : option spec_float :=
  if is_zero y then None else Some (SFdiv prec emax x y).

(** *** [round(x, ndigits)] for [ndigits >= 0] *)

(** The integer nearest to [a / b] for [b > 0], ties to the even one. *)
Definition div_half_even (a b : Z) : Z :=
  let q := a / b in
  let r := a mod b in
  match 2 * r ?= b with
  | Lt => q
  | Gt => q + 1
  | Eq => if Z.even q then q else q + 1
  end.

(** [float.__round__]: NaN, infinities and zeros round to themselves; a
    finite [x] is written in decimal with [ndigits] digits after the point,
    correctly rounded (mode 3 of [_Py_dg_dtoa]), and read back by [strtod].
    With [ndigits >= 0] the result is never larger than [x] rounded up to
    an integer, so the overflow error of [double_round] cannot occur. *)
Definition round (x : spec_float) (ndigits : N) : spec_float :=
  match x with
  | S754_finite s m e =>
      if (323 <? Z.of_N ndigits)%Z then x
      else
        let num := Zpos m * 2 ^ Z.max e 0 * 10 ^ Z.of_N ndigits in
        let den := 2 ^ Z.max (- e) 0 in
        of_decimal s (div_half_even num den) (- Z.of_N ndigits)
  | _ => x
  end.

(** *** [repr(x)]: the shortest decimal string that reads back as [x] *)

(** The unsigned decimal digits of a non-negative integer. *)
Fixpoint digits_of_pos_fuel (fuel : nat) (n : Z) (acc : string) : string :=
  match fuel with
  | O => acc
  | S f =>
      let acc' := String (ascii_of_N (Z.to_N (48 + n mod 10))) acc in
      if n <? 10 then acc' else digits_of_pos_fuel f (n / 10) acc'
  end.

Definition digits_of_Z (n : Z) : string :=
  digits_of_pos_fuel (S (Z.to_nat (Z.log2 n))) n EmptyString.

Definition strip_trailing_zeros (s : string) : string :=
  string_rev (drop_while (Ascii.eqb "0") (string_rev s)).

Fixpoint zeros (n : nat) : string :=
  match n with O => EmptyString | S k => String "0" (zeros k) end.

(** The canonical binary64 form of a finite value. *)
Definition canonical (x : spec_float) : spec_float :=
  match x with
  | S754_finite s m e => binary_round prec emax s m e
  | _ => x
  end.

(** Mode 0 of [_Py_dg_dtoa] for the positive value [m * 2^e] in canonical
    form: scan the decimal positions [q] downwards and stop at the first
    one where a multiple [n * 10^q] lies in the rounding interval of the
    value (the interval between the midpoints to its two neighbours, the
    end points included when [m] is even); of two such multiples the one
    nearer to the value is taken, the even one on a tie. Returns [(n, q)].
    Everything is counted in units of [2^(e-2) / 10^q]. *)
Fixpoint shortest_search (fuel : nat) (m : positive) (e q : Z) : Z * Z :=
  let unit_num := 2 ^ Z.max (e - 2) 0 * 10 ^ Z.max (- q) 0 in
  let unit_den := 2 ^ Z.max (2 - e) 0 * 10 ^ Z.max q 0 in
  let below :=
    if (Zpos m =? 2 ^ (prec - 1)) && (emin prec emax <? e) then 1 else 2 in
  let v := 4 * Zpos m * unit_num in
  let low := (4 * Zpos m - below) * unit_num in
  let high := (4 * Zpos m + 2) * unit_num in
  let inside n :=
    let c := n * unit_den in
    ((low <? c) && (c <? high))
    || (Z.even (Zpos m) && ((c =? low) || (c =? high))) in
  let n_lo := v / unit_den in
  let n_hi := n_lo + 1 in
  let found :=
    match inside n_lo, inside n_hi with
    | true, true =>
        match v - n_lo * unit_den ?= n_hi * unit_den - v with
        | Lt => Some n_lo
        | Gt => Some n_hi
        | Eq => Some (if Z.even n_lo then n_lo else n_hi)
        end
    | true, false => Some n_lo
    | false, true => Some n_hi
    | false, false => None
    end in
  match found, fuel with
  | Some n, _ => (n, q)
  | None, S f => shortest_search f m e (q - 1)
  | None, O => (n_lo, q)
  end.

(** The digits of the shortest representation and the position of the
    decimal point: the value is [0.d1 d2 ... * 10^decpt]. *)
Definition shortest_digits (m : positive) (e : Z) : string * Z :=
  let b := Zpos (digits2_pos m) + e in
  let q0 := b * 30103 / 100000 + 2 in
  let '(n, q) := shortest_search (Z.to_nat (q0 - Z.min e 0)) m e q0 in
  let ds := digits_of_Z n in
  (strip_trailing_zeros ds, q + strlen ds).

(** [format_float_short] with format code 'r': exponent notation when
    [decpt <= -4] or [decpt > 16]; a whole number gets ".0". *)
Definition format_repr (neg : bool) (ds : string) (decpt : Z) : string :=
  let body :=
    if (decpt <=? -4) || (16 <? decpt) then
      let ex := decpt - 1 in
      let exd := digits_of_Z (Z.abs ex) in
      let mant :=
        match ds with
        | String d EmptyString => ds
        | String d rest => String d ("." ++ rest)
        | EmptyString => ds
        end in
      mant ++ "e" ++ (if ex <? 0 then "-" else "+")
           ++ (if Z.abs ex <? 10 then "0" else "") ++ exd
    else if decpt <=? 0 then
      "0." ++ zeros (Z.to_nat (- decpt)) ++ ds
    else if strlen ds <=? decpt then
      ds ++ zeros (Z.to_nat (decpt - strlen ds)) ++ ".0"
    else
      substring 0 (Z.to_nat decpt) ds ++ "."
        ++ substring (Z.to_nat decpt) (String.length ds - Z.to_nat decpt) ds in
  if neg then "-" ++ body else body.

Definition repr (x : spec_float) : string :=
  match canonical x with
  | S754_nan => "nan"
  | S754_infinity s => if s then "-inf" else "inf"
  | S754_zero s => if s then "-0.0" else "0.0"
  | S754_finite s m e =>
      let '(ds, decpt) := shortest_digits m e in
      format_repr s ds decpt
  end.

End PyFloat.

(** ** Outcomes of Python code *)

Inductive exn :=
| ValueError
| TypeError
| ZeroDivisionError
| KeyError (key : string)
| Exception (msg : string)
| RequestError.

(** A computation returns a value, raises, or exhausts the fuel given to a
    loop of the model. *)
Inductive result (A : Type) :=
| Ok (a : A)
| Raise (e : exn)
| OutOfFuel.
Arguments Ok {A} a.
Arguments Raise {A} e.
Arguments OutOfFuel {A}.

(** ** Dates *)

Module PyDate.

(** A naive [datetime.datetime]. *)
Record datetime := mk_datetime {
  year : Z; month : Z; day : Z;
  hour : Z; minute : Z; second : Z; microsecond : Z }.

Definition fields (d : datetime) : list Z :=
  [year d; month d; day d; hour d; minute d; second d; microsecond d].

Fixpoint lex_lt (a b : list Z) : bool :=
  match a, b with
  | x :: a', y :: b' => (x <? y) || ((x =? y) && lex_lt a' b')
  | _, _ => false
  end.

(** [a < b] and [a > b] on datetimes. *)
Definition lt (a b : datetime) : bool := lex_lt (fields a) (fields b).
Definition gt (a b : datetime) : bool := lt b a.

(** [calendar.isleap] and [calendar.monthrange(year, month)[1]]. *)
Definition isleap (y : Z) : bool :=
  (y mod 4 =? 0) && (negb (y mod 100 =? 0) || (y mod 400 =? 0)).

Definition days_in_month (y m : Z) : Z :=
  if m =? 2 then (if isleap y then 29 else 28)
  else if (m =? 4) || (m =? 6) || (m =? 9) || (m =? 11) then 30
  else 31.

Definition valid_date (d : datetime) : bool :=
  (1 <=? year d) && (year d <=? 9999)
  && (1 <=? month d) && (month d <=? 12)
  && (1 <=? day d) && (day d <=? days_in_month (year d) (month d)).

(** *** [datetime.strptime(s, "%Y-%m-%d")] *)

Definition in_range (lo hi : ascii) (c : ascii) : bool :=
  (code lo <=? code c) && (code c <=? code hi).

(** [(?P<Y>\d\d\d\d)] *)
Definition read_Y (s : string) : option (Z * string) :=
  match s with
  | String a (String b (String c (String d t))) =>
      if is_digit a && is_digit b && is_digit c && is_digit d
      then Some (int_of_digits (String a (String b (String c (String d "")))), t)
      else None
  | _ => None
  end.

(** [(?P<m>1[0-2]|0[1-9]|[1-9])]: the first alternative that matches. *)
Definition read_m (s : string) : option (Z * string) :=
  match s with
  | String a t =>
      match t with
      | String b t' =>
          if Ascii.eqb a "1" && in_range "0" "2" b then Some (10 + digit_val b, t')
          else if Ascii.eqb a "0" && in_range "1" "9" b then Some (digit_val b, t')
          else if in_range "1" "9" a then Some (digit_val a, t)
          else None
      | EmptyString => if in_range "1" "9" a then Some (digit_val a, t) else None
      end
  | EmptyString => None
  end.

(** [(?P<d>3[0-1]|[1-2]\d|0[1-9]|[1-9]| [1-9])] *)
Definition read_d (s : string) : option (Z * string) :=
  match s with
  | String a t =>
      match t with
      | String b t' =>
          if Ascii.eqb a "3" && in_range "0" "1" b then Some (30 + digit_val b, t')
          else if in_range "1" "2" a && is_digit b then Some (10 * digit_val a + digit_val b, t')
          else if Ascii.eqb a "0" && in_range "1" "9" b then Some (digit_val b, t')
          else if in_range "1" "9" a then Some (digit_val a, t)
          else if Ascii.eqb a " " && in_range "1" "9" b then Some (digit_val b, t')
          else None
      | EmptyString => if in_range "1" "9" a then Some (digit_val a, t) else None
      end
  | EmptyString => None
  end.

Definition read_dash (s : string) : option string :=
  match s with
  | String "-" t => Some t
  | _ => None
  end.

(** The regular expression of the format must match a prefix of the string
    and nothing may remain; the fields must then form a date of the
    calendar, with a year from 1 on. Every failure is a [ValueError]. *)
Definition strptime_ymd (s : string) : result datetime :=
  match read_Y s with
  | None => Raise ValueError
  | Some (y, s1) =>
  match read_dash s1 with
  | None => Raise ValueError
  | Some s2 =>
  match read_m s2 with
  | None => Raise ValueError
  | Some (m, s3) =>
  match read_dash s3 with
  | None => Raise ValueError
  | Some s4 =>
  match read_d s4 with
  | None => Raise ValueError
  | Some (d, s5) =>
      match s5 with
      | String _ _ => Raise ValueError
      | EmptyString =>
          let dt := mk_datetime y m d 0 0 0 0 in
          if valid_date dt then Ok dt else Raise ValueError
      end
  end end end end end.

(** *** [relativedelta(dt1, dt2).years] *)

(** [relativedelta._set_months]: the pair [(years, months)]. *)
Definition set_months (months : Z) : Z * Z :=
  if 11 <? Z.abs months then
    let s := Z.sgn months in
    ((months * s / 12) * s, ((months * s) mod 12) * s)
  else (0, months).

(** [relativedelta.__radd__] for a delta that holds years and months only:
    the day is clipped to the length of the month; [None] stands for the
    [ValueError] of [datetime.replace] on a year outside 1..9999. *)
Definition radd (ym : Z * Z) (dt : datetime) : option datetime :=
  let '(years, months) := ym in
  let y0 := year dt + years in
  let '(y, m) :=
    if months =? 0 then (y0, month dt)
    else
      let m1 := month dt + months in
      if 12 <? m1 then (y0 + 1, m1 - 12)
      else if m1 <? 1 then (y0 - 1, m1 + 12)
      else (y0, m1) in
  let d := Z.min (days_in_month y m) (day dt) in
  if (1 <=? y) && (y <=? 9999)
  then Some (mk_datetime y m d (hour dt) (minute dt) (second dt) (microsecond dt))
  else None.

(** The loop [while compare(dt1, dtm): months += increment; ...]; the
    result is the field [years] when the loop is left. *)
Fixpoint adjust_months (fuel : nat) (compare : datetime -> datetime -> bool)
    (increment : Z) (dt1 dt2 : datetime) (months : Z) : result Z :=
  match radd (set_months months) dt2 with
  | None => Raise ValueError
  | Some dtm =>
      if compare dt1 dtm then
        match fuel with
        | O => OutOfFuel
        | S f => adjust_months f compare increment dt1 dt2 (months + increment)
        end
      else Ok (fst (set_months months))
  end.

Definition relativedelta_years (dt1 dt2 : datetime) : result Z :=
  let months := (year dt1 - year dt2) * 12 + (month dt1 - month dt2) in
  if lt dt1 dt2
  then adjust_months 2 gt 1 dt1 dt2 months
  else adjust_months 2 lt (-1) dt1 dt2 months.

End PyDate.


(** ** Values, the heap and the monad of the handler *)

(** The Python values that reach the handler: [None], a [str] or a [float]. *)
Inductive pyval :=
| PNone
| PStr (s : string)
| PFloat (x : spec_float).

(** [str(v)], as [str.format] inserts it for an empty format field. *)
Definition py_str (v : pyval) : string :=
  match v with
  | PNone => "None"
  | PStr s => s
  | PFloat x => PyFloat.repr x
  end.

(** [float(v)] *)
Definition py_float (v : pyval) : result spec_float :=
  match v with
  | PStr s =>
      match PyFloat.of_string s with
      | Some x => Ok x
      | None => Raise ValueError
      end
  | PFloat x => Ok x
  | PNone => Raise TypeError
  end.

(** A slot dictionary: its keys are [str] or [None], its values Python
    values. The heap maps the location of each dictionary to its content. *)
Definition loc := positive.
Abbreviation dict := (gmap (option string) pyval).
Abbreviation heap := (gmap loc (gmap (option string) pyval)).

(** The content of the dictionary at [l] (empty when [l] is not allocated). *)
Definition load (l : loc) (h : heap) : dict := default ∅ (h !! l).

(** Computations on the heap: the heap after the run is kept on every
    outcome, as the effects of Python code are when it raises. *)
Definition M (A : Type) : Type := heap -> result A * heap.

#[export] Instance M_ret : MRet M := fun A a h => (Ok a, h).
#[export] Instance M_bind : MBind M := fun A B f c h =>
  match c h with
  | (Ok a, h') => f a h'
  | (Raise e, h') => (Raise e, h')
  | (OutOfFuel, h') => (OutOfFuel, h')
  end.

Definition raise {A} (e : exn) : M A := fun h => (Raise e, h).

(** A computation that does not touch the heap. *)
Definition pure {A} (r : result A) : M A := fun h => (r, h).

(** [d[k]] *)
Definition getitem (l : loc) (k : string) : M pyval := fun h =>
  match load l h !! Some k with
  | Some v => (Ok v, h)
  | None => (Raise (KeyError k), h)
  end.

(** [d[k] = v] *)
Definition setitem (l : loc) (k : option string) (v : pyval) : M unit := fun h =>
  (Ok tt, <[l := <[k := v]> (load l h)]> h).

(** ** The event and the responses *)

Abbreviation session := (option (gmap string string)).

(** The Lex event: [currentIntent.name], [currentIntent.slots] (a reference
    to the slot dictionary), [invocationSource] and [sessionAttributes]. *)
Record IntentRequest := {
  currentIntent_name : string;
  currentIntent_slots : loc;
  invocationSource : string;
  sessionAttributes : session }.

Record Message := { contentType : string; content : string }.

(** The dictionary built by [build_validation_result]; a field that is
    [None] in [message] is a key that the dictionary does not have. *)
Record ValidationResult := {
  isValid : bool;
  violatedSlot : option string;
  message : option Message }.

(** The [dialogAction] of a response, by its [type]. *)
Inductive DialogAction :=
| ElicitSlot (intentName : string) (slots : loc) (slotToElicit : option string)
    (msg : Message)
| Delegate (slots : loc)
| Close (fulfillmentState : string) (msg : Message).

Record Response := {
  response_sessionAttributes : session;
  dialogAction : DialogAction }.

(** What the handler reads from outside: the clock, and the value found at
    [data.1.quotes.CAD.price] in the reply of the price service (or the
    exception raised on the way to it). *)
Record World := {
  now : PyDate.datetime;
  price_reply : result pyval }.

(** ** lambda_function.py *)

Definition parse_float (n : pyval) : result spec_float :=
  match py_float n with
  | Raise ValueError => py_float (PStr "nan")
  | r => r
  end.

Definition get_btcprice (w : World) : result spec_float :=
  match price_reply w with
  | Ok price => parse_float price
  | Raise e => Raise e
  | OutOfFuel => OutOfFuel
  end.

Definition build_validation_result (is_valid : bool)
    (violated_slot : option string) (message_content : option string)
  : ValidationResult :=
  match message_content with
  | None => {| isValid := is_valid; violatedSlot := violated_slot; message := None |}
  | Some text =>
      {| isValid := is_valid;
         violatedSlot := violated_slot;
         message := Some {| contentType := "PlainText"; content := text |} |}
  end.

Definition birthday_message : string :=
  "You should be at least 18 years old to use this service, "
  ++ "please provide a different date of birth.".

Definition amount_message : string :=
  "The amount to convert should be greater than zero, "
  ++ "please provide a correct amount in dollars to convert.".

(** The second half of [validate_data]: the amount, when there is one. *)
Definition validate_amount (cad_amount : pyval) : result ValidationResult :=
  match cad_amount with
  | PNone => Ok (build_validation_result true None None)
  | _ =>
      match parse_float cad_amount with
      | Ok cad_amount =>
          if PyFloat.le cad_amount PyFloat.zero
          then Ok (build_validation_result false (Some "cadAmount") (Some amount_message))
          else Ok (build_validation_result true None None)
      | Raise e => Raise e
      | OutOfFuel => OutOfFuel
      end
  end.

Definition validate_data (w : World) (birthday cad_amount : pyval)
    (intent_request : IntentRequest) : result ValidationResult :=
  match birthday with
  | PNone => validate_amount cad_amount
  | PFloat _ => Raise TypeError
  | PStr text =>
      match PyDate.strptime_ymd text with
      | Ok birth_date =>
          match PyDate.relativedelta_years (now w) birth_date with
          | Ok age =>
              if age <? 18
              then Ok (build_validation_result false (Some "birthday") (Some birthday_message))
              else validate_amount cad_amount
          | Raise e => Raise e
          | OutOfFuel => OutOfFuel
          end
      | Raise e => Raise e
      | OutOfFuel => OutOfFuel
      end
  end.

Definition get_slots (intent_request : IntentRequest) : loc :=
  currentIntent_slots intent_request.

Definition elicit_slot (session_attributes : session) (intent_name : string)
    (slots : loc) (slot_to_elicit : option string) (msg : Message) : Response :=
  {| response_sessionAttributes := session_attributes;
     dialogAction := ElicitSlot intent_name slots slot_to_elicit msg |}.

Definition delegate (session_attributes : session) (slots : loc) : Response :=
  {| response_sessionAttributes := session_attributes;
     dialogAction := Delegate slots |}.

Definition close (session_attributes : session) (fulfillment_state : string)
    (msg : Message) : Response :=
  {| response_sessionAttributes := session_attributes;
     dialogAction := Close fulfillment_state msg |}.

Definition newline : string := String (ascii_of_N 10) EmptyString.

(** The template of the closing message, around its two fields. *)
Definition close_prefix : string :=
  "Thank you for your information;" ++ newline ++ "            you can get ".
Definition close_middle : string := " Bitcoins for your $".
Definition close_suffix : string := " dollars." ++ newline ++ "            ".

Definition close_content (btc_value : spec_float) (cad_amount : pyval) : string :=
  close_prefix ++ py_str (PFloat btc_value) ++ close_middle
    ++ py_str cad_amount ++ close_suffix.

(** [validation_result["message"]] *)
Definition validation_message (r : ValidationResult) : result Message :=
  match message r with
  | Some m => Ok m
  | None => Raise (KeyError "message")
  end.

Definition convert_cad (w : World) (intent_request : IntentRequest) : M Response :=
  birthday ← getitem (get_slots intent_request) "birthday";
  cad_amount ← getitem (get_slots intent_request) "cadAmount";
  let source := invocationSource intent_request in
  if String.eqb source "DialogCodeHook" then
    let slots := get_slots intent_request in
    validation_result ← pure (validate_data w birthday cad_amount intent_request);
    if negb (isValid validation_result) then
      _ ← setitem slots (violatedSlot validation_result) PNone;
      msg ← pure (validation_message validation_result);
      mret (elicit_slot (sessionAttributes intent_request)
              (currentIntent_name intent_request)
              slots
              (violatedSlot validation_result)
              msg)
    else
      let output_session_attributes := sessionAttributes intent_request in
      mret (delegate output_session_attributes (get_slots intent_request))
  else
    amount ← pure (parse_float cad_amount);
    price ← pure (get_btcprice w);
    btc_value ← pure (match PyFloat.truediv amount price with
                       | Some q => Ok q
                       | None => Raise ZeroDivisionError
                       end);
    let btc_value := PyFloat.round btc_value 4 in
    mret (close (sessionAttributes intent_request)
            "Fulfilled"
            {| contentType := "PlainText";
               content := close_content btc_value cad_amount |}).

Definition dispatch (w : World) (intent_request : IntentRequest) : M Response :=
  let intent_name := currentIntent_name intent_request in
  if String.eqb intent_name "convertCAD" then convert_cad w intent_request
  else raise (Exception ("Intent with name " ++ intent_name ++ " not supported")).

Definition lambda_handler (w : World) (event : IntentRequest) : M Response :=
  dispatch w event.


(** ** loop_dee_loop.py *)

Module LoopDeeLoop.

(** What the script writes to the standard output: a line of [print], or the
    prompt of [input]. *)
Inductive output :=
| Line (text : string)
| Prompt (text : string).

(** How the script ends: at its last statement, or with the [EOFError] of an
    [input] that finds no answer. *)
Inductive ending := Finished | EOFError.

(** [range(a, b)] *)
Fixpoint range_from (a : Z) (n : nat) : list Z :=
  match n with
  | O => []
  | S k => a :: range_from (a + 1) k
  end.

Definition range (a b : Z) : list Z := range_from a (Z.to_nat (b - a)).

(** [str(x)] for an int *)
Definition str_int (x : Z) : string :=
  if x <? 0 then "-" ++ PyFloat.digits_of_Z (- x) else PyFloat.digits_of_Z x.

(** [for x in xs: print(x)] *)
Fixpoint print_each (xs : list Z) : list output :=
  match xs with
  | [] => []
  | x :: rest => Line (str_int x) :: print_each rest
  end.

(** [for letters in word: print(letters)] *)
Fixpoint print_letters (word : string) : list output :=
  match word with
  | EmptyString => []
  | String c rest => Line (String c EmptyString) :: print_letters rest
  end.

(** [for x in xs: if (x == desired_number): break; print(x)] *)
Fixpoint print_until (desired_number : Z) (xs : list Z) : list output :=
  match xs with
  | [] => []
  | x :: rest =>
      if x =? desired_number then []
      else Line (str_int x) :: print_until desired_number rest
  end.

(** [for x in xs: if x == 3: continue; print(x)] *)
Fixpoint print_skipping_3 (xs : list Z) : list output :=
  match xs with
  | [] => []
  | x :: rest =>
      if x =? 3 then print_skipping_3 rest
      else Line (str_int x) :: print_skipping_3 rest
  end.

(** A line of [n] dashes. *)
Fixpoint dashes (n : nat) : string :=
  match n with
  | O => EmptyString
  | S k => String "-" (dashes k)
  end.

Definition prompt : string := "To run again. Enter 'y'".

(** [while run == "y": print("Hi!"); run = input(prompt)], with the answers
    that the standard input still holds. *)
Fixpoint while_run (run : string) (answers : list string) {struct answers}
  : list output * ending :=
  if String.eqb run "y" then
    match answers with
    | [] => ([Line "Hi!"; Prompt prompt], EOFError)
    | answer :: rest =>
        let '(out, e) := while_run answer rest in
        (Line "Hi!" :: Prompt prompt :: out, e)
    end
  else ([], Finished).

(** The whole script, run on the lines of the standard input. *)
Definition script (answers : list string) : list output * ending :=
  let out1 := (print_each (range 0 8) ++ [Line (dashes 41)])%list in
  let out2 := (print_each (range 2 7) ++ [Line (dashes 40)])%list in
  let word := "54321" in
  let out3 := (print_letters word ++ [Line (dashes 40)])%list in
  let desired_number := 5 in
  let out4 := (print_until desired_number (range 0 10) ++ [Line (dashes 40)])%list in
  let out5 := (print_skipping_3 (range 0 10) ++ [Line (dashes 40)])%list in
  let run := "y" in
  let '(out6, e) := while_run run answers in
  ((out1 ++ out2 ++ out3 ++ out4 ++ out5 ++ out6)%list, e).

End LoopDeeLoop.

(** ** Named results and inputs used in the statements *)

Definition valid_result : ValidationResult :=
  {| isValid := true; violatedSlot := None; message := None |}.

Definition birthday_violation : ValidationResult :=
  {| isValid := false;
     violatedSlot := Some "birthday";
     message := Some {| contentType := "PlainText"; content := birthday_message |} |}.

Definition amount_violation : ValidationResult :=
  {| isValid := false;
     violatedSlot := Some "cadAmount";
     message := Some {| contentType := "PlainText"; content := amount_message |} |}.

(** The age that [validate_data] computes from a birthday string. *)
Definition age_of (w : World) (text : string) : result Z :=
  match PyDate.strptime_ymd text with
  | Ok birth_date => PyDate.relativedelta_years (now w) birth_date
  | Raise e => Raise e
  | OutOfFuel => OutOfFuel
  end.

(** The float that [parse_float] yields for a string. *)
Definition amount_of_string (text : string) : spec_float :=
  default PyFloat.nan (PyFloat.of_string text).

(** The invariant of a validation result. *)
Definition well_formed (r : ValidationResult) : Prop :=
  (violatedSlot r = None <-> message r = None)
  /\ (isValid r = true <-> violatedSlot r = None /\ message r = None).

(** The conditions under which the two checks of [validate_data] pass. *)
Definition birthday_ok (w : World) (b : pyval) : Prop :=
  b = PNone \/ exists text age, b = PStr text /\ age_of w text = Ok age /\ 18 <= age.

Definition amount_ok (a : pyval) : Prop :=
  a = PNone \/ exists x, parse_float a = Ok x /\ PyFloat.lt PyFloat.zero x = true.

(** The months counted from year 0, and the date that lies [k] months
    after [dt], its day clipped to the length of the month: what
    [relativedelta.__radd__] reaches from [dt]. *)
Definition month_index (d : PyDate.datetime) : Z :=
  12 * PyDate.year d + PyDate.month d - 1.

Definition shifted (k : Z) (dt : PyDate.datetime) : PyDate.datetime :=
  let t := month_index dt + k in
  let y := t / 12 in
  let m := t mod 12 + 1 in
  PyDate.mk_datetime y m (Z.min (PyDate.days_in_month y m) (PyDate.day dt))
    (PyDate.hour dt) (PyDate.minute dt) (PyDate.second dt) (PyDate.microsecond dt).

(** A sample clock, price and event. *)
Definition sample_now : PyDate.datetime := PyDate.mk_datetime 2020 6 15 12 30 0 0.

Definition price_50000 : spec_float := S754_finite false 6871947673600000 (-37).

Definition sample_world : World :=
  {| now := sample_now; price_reply := Ok (PFloat price_50000) |}.

Definition sample_request (source : string) : IntentRequest :=
  {| currentIntent_name := "convertCAD";
     currentIntent_slots := 1%positive;
     invocationSource := source;
     sessionAttributes := None |}.

Definition sample_heap (birthday cad_amount : pyval) : heap :=
  {[ 1%positive := {[ Some "birthday" := birthday; Some "cadAmount" := cad_amount ]} ]}.

(** An amount that the amount check lets through, and one that it reports. *)
Definition amount_accepted (a : pyval) : Prop :=
  a = PNone \/ exists x, parse_float a = Ok x /\ PyFloat.le x PyFloat.zero = false.

Definition amount_rejected (a : pyval) : Prop :=
  a <> PNone /\ exists x, parse_float a = Ok x /\ PyFloat.le x PyFloat.zero = true.

Definition underage (w : World) (b : pyval) : Prop :=
  exists text age, b = PStr text /\ age_of w text = Ok age /\ age < 18.

(** The day on which somebody born on [d] turns 18: the same day of the same
    month 18 years later, or the last day of that month when it is shorter. *)
Definition eighteenth_birthday (d : PyDate.datetime) : PyDate.datetime :=
  let y := PyDate.year d + 18 in
  PyDate.mk_datetime y (PyDate.month d)
    (Z.min (PyDate.days_in_month y (PyDate.month d)) (PyDate.day d))
    (PyDate.hour d) (PyDate.minute d) (PyDate.second d) (PyDate.microsecond d).

(** The runs of [convert_cad] from a heap [h], case by case: the outcome and
    the heap that it leaves. *)
Inductive convert_cad_run (w : World) (req : IntentRequest) (h : heap)
  : result Response * heap -> Prop :=
| run_no_birthday :
    load (get_slots req) h !! Some "birthday" = None ->
    convert_cad_run w req h (Raise (KeyError "birthday"), h)
| run_no_amount b :
    load (get_slots req) h !! Some "birthday" = Some b ->
    load (get_slots req) h !! Some "cadAmount" = None ->
    convert_cad_run w req h (Raise (KeyError "cadAmount"), h)
| run_validation_raises b a e :
    load (get_slots req) h !! Some "birthday" = Some b ->
    load (get_slots req) h !! Some "cadAmount" = Some a ->
    invocationSource req = "DialogCodeHook" ->
    validate_data w b a req = Raise e ->
    convert_cad_run w req h (Raise e, h)
| run_validation_fuel b a :
    load (get_slots req) h !! Some "birthday" = Some b ->
    load (get_slots req) h !! Some "cadAmount" = Some a ->
    invocationSource req = "DialogCodeHook" ->
    validate_data w b a req = OutOfFuel ->
    convert_cad_run w req h (OutOfFuel, h)
| run_delegate b a :
    load (get_slots req) h !! Some "birthday" = Some b ->
    load (get_slots req) h !! Some "cadAmount" = Some a ->
    invocationSource req = "DialogCodeHook" ->
    validate_data w b a req = Ok valid_result ->
    convert_cad_run w req h
      (Ok (delegate (sessionAttributes req) (get_slots req)), h)
| run_elicit b a r k msg :
    load (get_slots req) h !! Some "birthday" = Some b ->
    load (get_slots req) h !! Some "cadAmount" = Some a ->
    invocationSource req = "DialogCodeHook" ->
    validate_data w b a req = Ok r ->
    (r = birthday_violation /\ k = "birthday"
     \/ r = amount_violation /\ k = "cadAmount") ->
    message r = Some msg ->
    convert_cad_run w req h
      (Ok (elicit_slot (sessionAttributes req) (currentIntent_name req)
             (get_slots req) (Some k) msg),
       <[get_slots req := <[Some k := PNone]> (load (get_slots req) h)]> h)
| run_amount_raises b :
    load (get_slots req) h !! Some "birthday" = Some b ->
    load (get_slots req) h !! Some "cadAmount" = Some PNone ->
    invocationSource req <> "DialogCodeHook" ->
    convert_cad_run w req h (Raise TypeError, h)
| run_price_raises b a x e :
    load (get_slots req) h !! Some "birthday" = Some b ->
    load (get_slots req) h !! Some "cadAmount" = Some a ->
    invocationSource req <> "DialogCodeHook" ->
    parse_float a = Ok x ->
    get_btcprice w = Raise e ->
    convert_cad_run w req h (Raise e, h)
| run_price_fuel b a x :
    load (get_slots req) h !! Some "birthday" = Some b ->
    load (get_slots req) h !! Some "cadAmount" = Some a ->
    invocationSource req <> "DialogCodeHook" ->
    parse_float a = Ok x ->
    get_btcprice w = OutOfFuel ->
    convert_cad_run w req h (OutOfFuel, h)
| run_zero_division b a x p :
    load (get_slots req) h !! Some "birthday" = Some b ->
    load (get_slots req) h !! Some "cadAmount" = Some a ->
    invocationSource req <> "DialogCodeHook" ->
    parse_float a = Ok x ->
    get_btcprice w = Ok p ->
    PyFloat.is_zero p = true ->
    convert_cad_run w req h (Raise ZeroDivisionError, h)
| run_close b a x p :
    load (get_slots req) h !! Some "birthday" = Some b ->
    load (get_slots req) h !! Some "cadAmount" = Some a ->
    invocationSource req <> "DialogCodeHook" ->
    parse_float a = Ok x ->
    get_btcprice w = Ok p ->
    PyFloat.is_zero p = false ->
    convert_cad_run w req h
      (Ok (close (sessionAttributes req) "Fulfilled"
             {| contentType := "PlainText";
                content :=
                  close_content
                    (PyFloat.round (SFdiv PyFloat.prec PyFloat.emax x p) 4) a |}),
       h).

(** The output of the five [for] loops of the script, and [k] rounds of the
    [while] loop. *)
Definition loops_transcript : list LoopDeeLoop.output :=
  map LoopDeeLoop.Line
    ["0"; "1"; "2"; "3"; "4"; "5"; "6"; "7";
     "-----------------------------------------";
     "2"; "3"; "4"; "5"; "6";
     "----------------------------------------";
     "5"; "4"; "3"; "2"; "1";
     "----------------------------------------";
     "0"; "1"; "2"; "3"; "4";
     "----------------------------------------";
     "0"; "1"; "2"; "4"; "5"; "6"; "7"; "8"; "9";
     "----------------------------------------"].

Fixpoint greetings (k : nat) : list LoopDeeLoop.output :=
  match k with
  | O => []
  | S j =>
      LoopDeeLoop.Line "Hi!" :: LoopDeeLoop.Prompt "To run again. Enter 'y'"
        :: greetings j
  end.

(** ** Tactics *)

Ltac run_M :=
  unfold mbind, M_bind, mret, M_ret, pure, raise, getitem, setitem.

Ltac div_lia := Z.to_euclidean_division_equations; lia.

(** ** Facts about the library functions *)

Arguments PyFloat.of_string : simpl never.
Arguments PyFloat.repr : simpl never.
Arguments PyFloat.round : simpl never.
Arguments PyDate.strptime_ymd : simpl never.
Arguments PyDate.relativedelta_years : simpl never.

Lemma float_nan : py_float (PStr "nan") = Ok S754_nan.
Proof. reflexivity. Qed.

(** On a string [parse_float] never raises. *)
Lemma parse_float_str text : parse_float (PStr text) = Ok (amount_of_string text).
Proof.
  unfold parse_float, amount_of_string. cbn [py_float].
  destruct (PyFloat.of_string text) as [x|]; [reflexivity | apply float_nan].
Qed.

Lemma parse_float_float x : parse_float (PFloat x) = Ok x.
Proof. reflexivity. Qed.

Lemma parse_float_none : parse_float PNone = Raise TypeError.
Proof. reflexivity. Qed.

Lemma parse_float_outcome v :
  (exists x, parse_float v = Ok x) \/ parse_float v = Raise TypeError.
Proof.
  destruct v as [|text|x].
  - right. reflexivity.
  - left. eexists. apply parse_float_str.
  - left. eexists. reflexivity.
Qed.

(** A NaN is not below zero, and a value above zero is not below it. *)
Lemma nan_not_le_zero : PyFloat.le S754_nan PyFloat.zero = false.
Proof. reflexivity. Qed.

Lemma lt_zero_not_le x :
  PyFloat.lt PyFloat.zero x = true -> PyFloat.le x PyFloat.zero = false.
Proof. destruct x as [s|s| |s m e]; try destruct s; cbn; congruence. Qed.

(** [round] replaces a finite value by the float nearest to [n / 10^ndigits],
    where [n] is an integer nearest to the value times [10^ndigits]. *)
Lemma div_half_even_nearest a b :
  0 < b -> 2 * Z.abs (a - b * PyFloat.div_half_even a b) <= b.
Proof.
  intros Hb. unfold PyFloat.div_half_even.
  destruct (Z.compare_spec (2 * (a mod b)) b); [destruct (Z.even (a / b)) | |];
    div_lia.
Qed.

Lemma round_finite s m e (ndigits : N) :
  Z.of_N ndigits <= 323 ->
  let num := Zpos m * 2 ^ Z.max e 0 * 10 ^ Z.of_N ndigits in
  let den := 2 ^ Z.max (- e) 0 in
  exists n,
    PyFloat.round (S754_finite s m e) ndigits
      = PyFloat.of_decimal s n (- Z.of_N ndigits)
    /\ 2 * Z.abs (num - den * n) <= den.
Proof.
  intros Hnd num den. exists (PyFloat.div_half_even num den). split.
  - unfold PyFloat.round. destruct (Z.ltb_spec 323 (Z.of_N ndigits)); [lia | reflexivity].
  - apply div_half_even_nearest. apply Z.pow_pos_nonneg; lia.
Qed.

Lemma round_nan ndigits : PyFloat.round S754_nan ndigits = S754_nan.
Proof. reflexivity. Qed.

(** [strptime] fails with [ValueError] only, and never runs a loop. *)
Lemma strptime_ymd_outcome text :
  (exists d, PyDate.strptime_ymd text = Ok d)
  \/ PyDate.strptime_ymd text = Raise ValueError.
Proof.
  unfold PyDate.strptime_ymd.
  repeat match goal with
         | |- context [match ?x with _ => _ end] =>
             destruct x eqn:?; try (right; reflexivity)
         end.
  left. eexists. reflexivity.
Qed.

(** ** Facts about dates: [relativedelta] terminates *)

Module PyDateFacts.
Import PyDate.

Lemma radd_set_months k dt :
  1 <= month dt <= 12 ->
  radd (set_months k) dt =
    if (1 <=? year (shifted k dt)) && (year (shifted k dt) <=? 9999)
    then Some (shifted k dt) else None.
Proof.
  intros Hm. unfold radd, set_months, shifted, month_index. cbn [year].
  set (t := 12 * year dt + month dt - 1 + k).
  assert (Hy : forall y m, 12 * y + m - 1 = t -> 1 <= m <= 12 -> y = t / 12 /\ m = t mod 12 + 1)
    by (intros; div_lia).
  destruct (Z.ltb_spec 11 (Z.abs k)) as [Hbig | Hsmall].
  - assert (Hs : (0 < k /\ Z.sgn k = 1) \/ (k < 0 /\ Z.sgn k = -1)) by lia.
    destruct Hs as [[Hk ->] | [Hk ->]].
    + destruct (Z.eqb_spec (k * 1 mod 12 * 1) 0) as [E | E].
      * destruct (Hy (year dt + k * 1 / 12 * 1) (month dt)) as [-> ->]; [subst t; div_lia | lia |].
        reflexivity.
      * destruct (Z.ltb_spec 12 (month dt + k * 1 mod 12 * 1)).
        -- destruct (Hy (year dt + k * 1 / 12 * 1 + 1) (month dt + k * 1 mod 12 * 1 - 12)) as [-> ->];
             [subst t; div_lia | div_lia |]. reflexivity.
        -- destruct (Z.ltb_spec (month dt + k * 1 mod 12 * 1) 1); [div_lia |].
           destruct (Hy (year dt + k * 1 / 12 * 1) (month dt + k * 1 mod 12 * 1)) as [-> ->];
             [subst t; div_lia | div_lia |]. reflexivity.
    + destruct (Z.eqb_spec (k * -1 mod 12 * -1) 0) as [E | E].
      * destruct (Hy (year dt + k * -1 / 12 * -1) (month dt)) as [-> ->]; [subst t; div_lia | lia |].
        reflexivity.
      * destruct (Z.ltb_spec 12 (month dt + k * -1 mod 12 * -1)); [div_lia |].
        destruct (Z.ltb_spec (month dt + k * -1 mod 12 * -1) 1).
        -- destruct (Hy (year dt + k * -1 / 12 * -1 - 1) (month dt + k * -1 mod 12 * -1 + 12)) as [-> ->];
             [subst t; div_lia | div_lia |]. reflexivity.
        -- destruct (Hy (year dt + k * -1 / 12 * -1) (month dt + k * -1 mod 12 * -1)) as [-> ->];
             [subst t; div_lia | div_lia |]. reflexivity.
  - destruct (Z.eqb_spec k 0) as [E | E].
    + destruct (Hy (year dt + 0) (month dt)) as [-> ->]; [subst t; lia | lia |]. reflexivity.
    + destruct (Z.ltb_spec 12 (month dt + k)).
      * destruct (Hy (year dt + 0 + 1) (month dt + k - 12)) as [-> ->]; [subst t; lia | lia |].
        reflexivity.
      * destruct (Z.ltb_spec (month dt + k) 1).
        -- destruct (Hy (year dt + 0 - 1) (month dt + k + 12)) as [-> ->]; [subst t; lia | lia |].
           reflexivity.
        -- destruct (Hy (year dt + 0) (month dt + k)) as [-> ->]; [subst t; lia | lia |].
           reflexivity.
Qed.

Lemma month_index_shifted k dt : month_index (shifted k dt) = month_index dt + k.
Proof. unfold shifted, month_index. cbn [year month]. div_lia. Qed.

Lemma month_shifted k dt : 1 <= month (shifted k dt) <= 12.
Proof. unfold shifted. cbn [month]. div_lia. Qed.

Lemma year_shifted k dt : year (shifted k dt) = (month_index dt + k) / 12.
Proof. reflexivity. Qed.

Lemma valid_date_bounds d :
  valid_date d = true ->
  1 <= year d <= 9999 /\ 1 <= month d <= 12
  /\ 1 <= day d <= days_in_month (year d) (month d).
Proof.
  unfold valid_date. rewrite !andb_true_iff, !Z.leb_le. tauto.
Qed.

Lemma shifted_0 dt : valid_date dt = true -> shifted 0 dt = dt.
Proof.
  intros H. apply valid_date_bounds in H as (Hy & Hm & Hd).
  unfold shifted, month_index. destruct dt as [y m d hh mi ss us]. cbn in *.
  assert (Ey : (12 * y + m - 1 + 0) / 12 = y) by div_lia.
  assert (Em : (12 * y + m - 1 + 0) mod 12 + 1 = m) by div_lia.
  rewrite Ey, Em. f_equal. lia.
Qed.

Lemma lex_lt_asym a b : lex_lt a b = true -> lex_lt b a = false.
Proof.
  revert b. induction a as [|x a IH]; intros [|y b]; cbn; try congruence.
  rewrite orb_true_iff, andb_true_iff, Z.ltb_lt, Z.eqb_eq.
  intros [Hlt | [-> Hrest]].
  - destruct (Z.ltb_spec y x); [lia |]. destruct (Z.eqb_spec y x); [lia | reflexivity].
  - rewrite Z.ltb_irrefl, Z.eqb_refl, (IH _ Hrest). reflexivity.
Qed.

Lemma lt_asym a b : lt a b = true -> lt b a = false.
Proof. apply lex_lt_asym. Qed.

(** A date in an earlier month is the smaller one. *)
Lemma lt_by_month a b :
  1 <= month a <= 12 -> 1 <= month b <= 12 ->
  month_index a < month_index b -> lt a b = true.
Proof.
  unfold month_index, lt, fields. intros Ha Hb Hlt. cbn [lex_lt].
  destruct (Z.ltb_spec (year a) (year b)); [reflexivity |].
  destruct (Z.eqb_spec (year a) (year b)); [| lia].
  destruct (Z.ltb_spec (month a) (month b)); [reflexivity | lia].
Qed.

Lemma relativedelta_years_total dt1 dt2 :
  valid_date dt1 = true -> valid_date dt2 = true ->
  exists years, relativedelta_years dt1 dt2 = Ok years.
Proof.
  intros V1 V2.
  pose proof (valid_date_bounds _ V1) as (Hy1 & Hm1 & _).
  pose proof (valid_date_bounds _ V2) as (Hy2 & Hm2 & _).
  unfold relativedelta_years.
  set (k := (year dt1 - year dt2) * 12 + (month dt1 - month dt2)).
  assert (Hk : month_index dt2 + k = month_index dt1) by (unfold month_index, k; lia).
  assert (Hy0 : year (shifted k dt2) = year dt1)
    by (rewrite year_shifted, Hk; unfold month_index; div_lia).
  destruct (lt dt1 dt2) eqn:Hlt.
  - (* dt1 < dt2 *)
    cbn [adjust_months]. rewrite (radd_set_months _ _ Hm2), Hy0.
    destruct (Z.leb_spec 1 (year dt1)); [| lia].
    destruct (Z.leb_spec (year dt1) 9999); [| lia]. cbn [andb].
    destruct (gt dt1 (shifted k dt2)) eqn:Hgt; [| eexists; reflexivity].
    assert (Hneg : k <= -1).
    { destruct (Z.le_gt_cases k (-1)) as [|Hge]; [assumption | exfalso].
      destruct (Z.eq_dec k 0) as [E | E].
      - rewrite E, (shifted_0 _ V2) in Hgt. unfold gt in Hgt.
        rewrite (lt_asym _ _ Hlt) in Hgt. discriminate.
      - rewrite (lt_asym dt2 dt1) in Hlt; [discriminate |].
        apply lt_by_month; lia. }
    rewrite (radd_set_months _ _ Hm2).
    assert (Hy' : 1 <= year (shifted (k + 1) dt2) <= 9999).
    { rewrite year_shifted. unfold month_index in *. div_lia. }
    destruct (Z.leb_spec 1 (year (shifted (k + 1) dt2))); [| lia].
    destruct (Z.leb_spec (year (shifted (k + 1) dt2)) 9999); [| lia]. cbn [andb].
    unfold gt. rewrite (lt_asym dt1 (shifted (k + 1) dt2)); [eexists; reflexivity |].
    apply lt_by_month; [lia | apply month_shifted |].
    rewrite month_index_shifted. lia.
  - (* dt1 >= dt2 *)
    cbn [adjust_months]. rewrite (radd_set_months _ _ Hm2), Hy0.
    destruct (Z.leb_spec 1 (year dt1)); [| lia].
    destruct (Z.leb_spec (year dt1) 9999); [| lia]. cbn [andb].
    destruct (lt dt1 (shifted k dt2)) eqn:Hlt'; [| eexists; reflexivity].
    assert (Hpos : 1 <= k).
    { destruct (Z.le_gt_cases 1 k) as [|Hle]; [assumption | exfalso].
      destruct (Z.eq_dec k 0) as [E | E].
      - rewrite E, (shifted_0 _ V2) in Hlt'. congruence.
      - rewrite (lt_by_month dt1 dt2) in Hlt; [discriminate | lia | lia | lia]. }
    rewrite (radd_set_months _ _ Hm2).
    assert (Hy' : 1 <= year (shifted (k + -1) dt2) <= 9999).
    { rewrite year_shifted. unfold month_index in *. div_lia. }
    destruct (Z.leb_spec 1 (year (shifted (k + -1) dt2))); [| lia].
    destruct (Z.leb_spec (year (shifted (k + -1) dt2)) 9999); [| lia]. cbn [andb].
    rewrite (lt_asym (shifted (k + -1) dt2) dt1); [eexists; reflexivity |].
    apply lt_by_month; [apply month_shifted | lia |].
    rewrite month_index_shifted. lia.
Qed.

Lemma set_months_years k : 0 <= k -> fst (set_months k) = k / 12.
Proof.
  intros Hk. unfold set_months.
  destruct (Z.ltb_spec 11 (Z.abs k)) as [Hbig | Hsmall]; cbn [fst].
  - assert (Hs : Z.sgn k = 1) by lia. rewrite Hs. div_lia.
  - div_lia.
Qed.

(** The age in whole years of a birth date that is not in the future: the
    whole months from the birth date to now, less one when the day of the
    month (clipped to the length of the current month) has not been reached
    yet, divided by twelve. *)
Lemma relativedelta_years_past dt1 dt2 :
  valid_date dt1 = true -> valid_date dt2 = true ->
  lt dt1 dt2 = false ->
  let k := month_index dt1 - month_index dt2 in
  relativedelta_years dt1 dt2 =
    Ok ((if lt dt1 (shifted k dt2) then k - 1 else k) / 12)
  /\ 0 <= (if lt dt1 (shifted k dt2) then k - 1 else k).
Proof.
  intros V1 V2 Hlt k.
  pose proof (valid_date_bounds _ V1) as (Hy1 & Hm1 & _).
  pose proof (valid_date_bounds _ V2) as (Hy2 & Hm2 & _).
  assert (Hk0 : 0 <= k).
  { destruct (Z.le_gt_cases 0 k) as [|Hneg]; [assumption | exfalso].
    rewrite (lt_by_month dt1 dt2) in Hlt; [discriminate | lia | lia | unfold k in Hneg; lia]. }
  unfold relativedelta_years. rewrite Hlt.
  replace ((year dt1 - year dt2) * 12 + (month dt1 - month dt2)) with k
    by (unfold k, month_index; lia).
  assert (Hy0 : year (shifted k dt2) = year dt1)
    by (rewrite year_shifted; unfold k, month_index; div_lia).
  cbn [adjust_months]. rewrite (radd_set_months _ _ Hm2), Hy0.
  destruct (Z.leb_spec 1 (year dt1)); [| lia].
  destruct (Z.leb_spec (year dt1) 9999); [| lia]. cbn [andb].
  destruct (lt dt1 (shifted k dt2)) eqn:Hlt'.
  - assert (Hpos : 1 <= k).
    { destruct (Z.eq_dec k 0) as [E | E]; [| lia]. exfalso.
      rewrite E, (shifted_0 _ V2) in Hlt'. congruence. }
    rewrite (radd_set_months _ _ Hm2).
    assert (Hy' : 1 <= year (shifted (k + -1) dt2) <= 9999).
    { rewrite year_shifted. unfold k, month_index in *. div_lia. }
    destruct (Z.leb_spec 1 (year (shifted (k + -1) dt2))); [| lia].
    destruct (Z.leb_spec (year (shifted (k + -1) dt2)) 9999); [| lia]. cbn [andb].
    rewrite (lt_asym (shifted (k + -1) dt2) dt1).
    + rewrite set_months_years by lia. split; [reflexivity | lia].
    + apply lt_by_month; [apply month_shifted | lia |].
      rewrite month_index_shifted. unfold k. lia.
  - rewrite set_months_years by lia. split; [reflexivity | lia].
Qed.

Lemma strptime_ymd_valid text d :
  strptime_ymd text = Ok d -> valid_date d = true.
Proof.
  unfold strptime_ymd. intros H.
  repeat match type of H with
         | match ?x with _ => _ end = _ => destruct x eqn:?; try discriminate
         end.
  congruence.
Qed.

End PyDateFacts.

(** With a clock that shows a date of the calendar, the age of every
    birthday that [strptime] accepts is computed. *)
Lemma age_of_total w text d :
  PyDate.valid_date (now w) = true ->
  PyDate.strptime_ymd text = Ok d ->
  exists age, age_of w text = Ok age.
Proof.
  intros Hnow Hd. unfold age_of. rewrite Hd.
  apply PyDateFacts.relativedelta_years_total;
    [exact Hnow | exact (PyDateFacts.strptime_ymd_valid _ _ Hd)].
Qed.

(** ** Facts about [validate_data] *)

Lemma validate_amount_cases a r :
  validate_amount a = Ok r -> r = valid_result \/ r = amount_violation.
Proof.
  unfold validate_amount, build_validation_result, valid_result, amount_violation.
  intros H.
  destruct a as [|text|x].
  - left. congruence.
  - rewrite parse_float_str in H.
    destruct (PyFloat.le _ _); [right | left]; congruence.
  - rewrite parse_float_float in H.
    destruct (PyFloat.le _ _); [right | left]; congruence.
Qed.

Lemma validate_data_cases w b a req r :
  validate_data w b a req = Ok r ->
  r = valid_result \/ r = birthday_violation \/ r = amount_violation.
Proof.
  unfold validate_data, build_validation_result, birthday_violation. intros H.
  destruct b as [|text|x]; [| | discriminate].
  - apply validate_amount_cases in H. tauto.
  - destruct (PyDate.strptime_ymd text) as [d|e|]; try discriminate.
    destruct (PyDate.relativedelta_years (now w) d) as [age|e|]; try discriminate.
    destruct (age <? 18).
    + right; left. congruence.
    + apply validate_amount_cases in H. tauto.
Qed.

(** The amount check always returns; with a clock that shows a date of the
    calendar, [validate_data] returns for every birthday that [strptime]
    accepts, and for an absent one. *)
Lemma validate_amount_total a : exists r, validate_amount a = Ok r.
Proof.
  unfold validate_amount. destruct a as [|text|x].
  - eexists; reflexivity.
  - rewrite parse_float_str. destruct (PyFloat.le _ _); eexists; reflexivity.
  - rewrite parse_float_float. destruct (PyFloat.le _ _); eexists; reflexivity.
Qed.

Lemma validate_data_total w text d a req :
  PyDate.valid_date (now w) = true ->
  PyDate.strptime_ymd text = Ok d ->
  exists r, validate_data w (PStr text) a req = Ok r.
Proof.
  intros Hnow Hd.
  destruct (age_of_total w text d Hnow Hd) as [age Hage].
  unfold age_of in Hage. unfold validate_data. rewrite Hd in *. rewrite Hage.
  destruct (age <? 18); [eexists; reflexivity | apply validate_amount_total].
Qed.

Lemma validate_data_total_no_birthday w a req :
  exists r, validate_data w PNone a req = Ok r.
Proof. apply validate_amount_total. Qed.

Lemma well_formed_valid : well_formed valid_result.
Proof. unfold well_formed; cbn. tauto. Qed.

Lemma well_formed_birthday : well_formed birthday_violation.
Proof. unfold well_formed; cbn. intuition congruence. Qed.

Lemma well_formed_amount : well_formed amount_violation.
Proof. unfold well_formed; cbn. intuition congruence. Qed.

Lemma validate_amount_ok a : amount_ok a -> validate_amount a = Ok valid_result.
Proof.
  intros [-> | (x & Hx & Hpos)]; [reflexivity |].
  unfold validate_amount. rewrite Hx, (lt_zero_not_le _ Hpos).
  destruct a; [discriminate | reflexivity | reflexivity].
Qed.

Lemma validate_data_birthday_ok w b a req :
  birthday_ok w b -> validate_data w b a req = validate_amount a.
Proof.
  intros [-> | (text & age & -> & Hage & Hle)]; [reflexivity |].
  unfold age_of in Hage. unfold validate_data.
  destruct (PyDate.strptime_ymd text) as [d|e|]; try discriminate.
  rewrite Hage.
  destruct (Z.ltb_spec age 18); [lia | reflexivity].
Qed.

(** A string that [float] rejects becomes a NaN, and the NaN passes the
    amount check. *)
Lemma validate_amount_non_numeric text :
  PyFloat.of_string text = None -> validate_amount (PStr text) = Ok valid_result.
Proof.
  intros H. unfold validate_amount. rewrite parse_float_str.
  unfold amount_of_string. rewrite H. reflexivity.
Qed.

(** The amount is reported only after the birthday has passed its check. *)
Lemma amount_violation_after_birthday w b a req :
  validate_data w b a req = Ok amount_violation ->
  validate_data w b PNone req = Ok valid_result.
Proof.
  unfold validate_data. destruct b as [|text|x]; [reflexivity | | discriminate].
  destruct (PyDate.strptime_ymd text) as [d|e|]; try discriminate.
  destruct (PyDate.relativedelta_years (now w) d) as [age|e|]; try discriminate.
  destruct (age <? 18); [discriminate | reflexivity].
Qed.

(** ** The claims about [validate_data] *)

(** C1 (the code departs from the claim). A string that [float] does not
    accept is turned into a NaN by [parse_float], without an exception; but
    the comparison [nan <= 0] is false, so the amount check lets it through:
    with a birthday that is absent or of age, [validate_data] returns the
    valid result, where the claim expects the amount slot to be reported. *)
Theorem validate_data_accepts_non_numeric_amount w b text req :
  PyFloat.of_string text = None ->
  birthday_ok w b ->
  parse_float (PStr text) = Ok S754_nan
  /\ PyFloat.le S754_nan PyFloat.zero = false
  /\ validate_data w b (PStr text) req = Ok valid_result.
Proof.
  intros Hbad Hb.
  split; [rewrite parse_float_str; unfold amount_of_string; rewrite Hbad; reflexivity |].
  split; [apply nan_not_le_zero |].
  rewrite validate_data_birthday_ok by exact Hb.
  apply validate_amount_non_numeric, Hbad.
Qed.

Lemma validate_data_accepts_non_numeric_amount_witness :
  PyFloat.of_string "abc" = None
  /\ birthday_ok sample_world PNone
  /\ parse_float (PStr "abc") = Ok S754_nan
  /\ PyFloat.le S754_nan PyFloat.zero = false
  /\ validate_data sample_world PNone (PStr "abc") (sample_request "DialogCodeHook")
       = Ok valid_result.
Proof.
  assert (H : PyFloat.of_string "abc" = None) by (vm_compute; reflexivity).
  assert (Hb : birthday_ok sample_world PNone) by (left; reflexivity).
  split; [exact H |]. split; [exact Hb |].
  exact (validate_data_accepts_non_numeric_amount sample_world PNone "abc" _ H Hb).
Defined.

(** C4. When the age computed from the birthday string is below 18,
    [validate_data] returns the result with [isValid = false] whose only
    violated slot is "birthday", whatever the amount is. *)
Theorem validate_data_underage w text a req age :
  age_of w text = Ok age -> age < 18 ->
  validate_data w (PStr text) a req = Ok birthday_violation.
Proof.
  unfold age_of, validate_data. intros Hage Hlt.
  destruct (PyDate.strptime_ymd text) as [d|e|]; try discriminate.
  rewrite Hage.
  destruct (Z.ltb_spec age 18); [reflexivity | lia].
Qed.

Lemma validate_data_underage_witness :
  age_of sample_world "2005-01-01" = Ok 15 /\ 15 < 18
  /\ validate_data sample_world (PStr "2005-01-01") (PStr "-5")
       (sample_request "DialogCodeHook") = Ok birthday_violation.
Proof.
  split; [vm_compute; reflexivity |].
  split; [lia |].
  apply (validate_data_underage sample_world "2005-01-01" (PStr "-5") _ 15);
    [vm_compute; reflexivity | lia].
Defined.

(** C5. When the birthday is absent or gives an age of at least 18, and the
    amount is absent or parses to a value above zero, [validate_data]
    returns [isValid = true] with no violated slot and no message. *)
Theorem validate_data_accepts w b a req :
  birthday_ok w b -> amount_ok a -> validate_data w b a req = Ok valid_result.
Proof.
  intros Hb Ha. rewrite validate_data_birthday_ok by exact Hb.
  apply validate_amount_ok, Ha.
Qed.

Lemma validate_data_accepts_witness :
  birthday_ok sample_world (PStr "1990-01-01") /\ amount_ok (PStr "1000")
  /\ validate_data sample_world (PStr "1990-01-01") (PStr "1000")
       (sample_request "DialogCodeHook") = Ok valid_result.
Proof.
  assert (Hb : birthday_ok sample_world (PStr "1990-01-01")).
  { right. exists "1990-01-01", 30.
    split; [reflexivity |]. split; [vm_compute; reflexivity | lia]. }
  assert (Ha : amount_ok (PStr "1000")).
  { right. eexists. split; [apply parse_float_str | vm_compute; reflexivity]. }
  split; [exact Hb |]. split; [exact Ha |].
  apply (validate_data_accepts sample_world (PStr "1990-01-01") (PStr "1000") _ Hb Ha).
Defined.

(** C8. Every result that [validate_data] builds with
    [build_validation_result] has its violated slot and its message both
    present or both absent, and both are absent exactly when [isValid]
    holds. *)
Theorem validate_data_well_formed w b a req r :
  validate_data w b a req = Ok r -> well_formed r.
Proof.
  intros H. apply validate_data_cases in H as [-> | [-> | ->]].
  - apply well_formed_valid.
  - apply well_formed_birthday.
  - apply well_formed_amount.
Qed.

Lemma validate_data_well_formed_witness :
  validate_data sample_world PNone (PStr "-1") (sample_request "DialogCodeHook")
    = Ok amount_violation
  /\ well_formed amount_violation.
Proof.
  assert (H : validate_data sample_world PNone (PStr "-1")
                (sample_request "DialogCodeHook") = Ok amount_violation)
    by (vm_compute; reflexivity).
  split; [exact H |].
  exact (validate_data_well_formed _ _ _ _ _ H).
Defined.

(** C10. A birthday string that [strptime] cannot read as a date of the
    format "%Y-%m-%d" makes [validate_data] raise [ValueError]: no
    validation result is returned, whatever the amount is. *)
Theorem validate_data_malformed_birthday w text a req :
  (forall d, PyDate.strptime_ymd text <> Ok d) ->
  validate_data w (PStr text) a req = Raise ValueError.
Proof.
  intros Hbad. unfold validate_data.
  destruct (strptime_ymd_outcome text) as [[d Hd] | Hd].
  - destruct (Hbad d Hd).
  - rewrite Hd. reflexivity.
Qed.

Lemma validate_data_malformed_birthday_witness :
  (forall d, PyDate.strptime_ymd "15/06/1990" <> Ok d)
  /\ validate_data sample_world (PStr "15/06/1990") (PStr "abc")
       (sample_request "DialogCodeHook") = Raise ValueError.
Proof.
  assert (H : forall d, PyDate.strptime_ymd "15/06/1990" <> Ok d)
    by (intros d; vm_compute; discriminate).
  split; [exact H |].
  exact (validate_data_malformed_birthday sample_world "15/06/1990" (PStr "abc") _ H).
Defined.

(** ** Facts about [convert_cad] *)

(** The first two statements of [convert_cad] read both slots. *)
Lemma convert_cad_reads_slots w req h b a :
  load (get_slots req) h !! Some "birthday" = Some b ->
  load (get_slots req) h !! Some "cadAmount" = Some a ->
  convert_cad w req h =
    (if String.eqb (invocationSource req) "DialogCodeHook" then
       validation_result ← pure (validate_data w b a req);
       if negb (isValid validation_result) then
         _ ← setitem (get_slots req) (violatedSlot validation_result) PNone;
         msg ← pure (validation_message validation_result);
         mret (elicit_slot (sessionAttributes req) (currentIntent_name req)
                 (get_slots req) (violatedSlot validation_result) msg)
       else mret (delegate (sessionAttributes req) (get_slots req))
     else
       amount ← pure (parse_float a);
       price ← pure (get_btcprice w);
       btc_value ← pure (match PyFloat.truediv amount price with
                          | Some q => Ok q
                          | None => Raise ZeroDivisionError
                          end);
       mret (close (sessionAttributes req) "Fulfilled"
               {| contentType := "PlainText";
                  content := close_content (PyFloat.round btc_value 4) a |})) h.
Proof.
  intros Hb Ha. unfold convert_cad.
  unfold mbind at 1, M_bind at 1, getitem at 1. rewrite Hb.
  unfold mbind at 1, M_bind at 1, getitem at 1. rewrite Ha.
  reflexivity.
Qed.

(** A missing slot key stops [convert_cad] before anything is written. *)
Lemma convert_cad_missing_birthday w req h :
  load (get_slots req) h !! Some "birthday" = None ->
  convert_cad w req h = (Raise (KeyError "birthday"), h).
Proof. intros H. unfold convert_cad. run_M. rewrite H. reflexivity. Qed.

Lemma convert_cad_missing_amount w req h b :
  load (get_slots req) h !! Some "birthday" = Some b ->
  load (get_slots req) h !! Some "cadAmount" = None ->
  convert_cad w req h = (Raise (KeyError "cadAmount"), h).
Proof. intros Hb Ha. unfold convert_cad. run_M. rewrite Hb, Ha. reflexivity. Qed.

Lemma load_insert (l : loc) (d : dict) (h : heap) : load l (<[l := d]> h) = d.
Proof. unfold load. rewrite lookup_insert_eq. reflexivity. Qed.

(** ** The claims about the dispatcher *)

(** C3. In the validation phase ([invocationSource = "DialogCodeHook"]), when
    the slots fail validation, [convert_cad] returns an [ElicitSlot] response
    whose [slotToElicit] is the violated slot of the validation result and
    whose message is the validation message; the slot dictionary of the
    response then holds [None] for that slot, and its other entries are as
    before. The slot is the first one violated: the amount is elicited only
    when the birthday alone passes validation. *)
Theorem convert_cad_elicits_violated_slot w req h b a r :
  invocationSource req = "DialogCodeHook" ->
  load (get_slots req) h !! Some "birthday" = Some b ->
  load (get_slots req) h !! Some "cadAmount" = Some a ->
  validate_data w b a req = Ok r ->
  isValid r = false ->
  exists k msg h',
    violatedSlot r = Some k /\ message r = Some msg
    /\ convert_cad w req h =
         (Ok {| response_sessionAttributes := sessionAttributes req;
                dialogAction :=
                  ElicitSlot (currentIntent_name req) (get_slots req) (Some k) msg |},
          h')
    /\ (k = "birthday"
        \/ (k = "cadAmount" /\ validate_data w b PNone req = Ok valid_result))
    /\ load (get_slots req) h' !! Some k = Some PNone
    /\ forall k', k' <> Some k ->
         load (get_slots req) h' !! k' = load (get_slots req) h !! k'.
Proof.
  intros Hsrc Hb Ha Hr Hinv.
  rewrite (convert_cad_reads_slots _ _ _ _ _ Hb Ha), Hsrc, Hr.
  assert (Hcases : r = birthday_violation \/ r = amount_violation).
  { destruct (validate_data_cases _ _ _ _ _ Hr) as [-> | H]; [discriminate | exact H]. }
  destruct Hcases as [-> | ->]; cbn [String.eqb Ascii.eqb Bool.eqb].
  - exists "birthday", {| contentType := "PlainText"; content := birthday_message |}.
    eexists. repeat split.
    + left. reflexivity.
    + rewrite load_insert. apply lookup_insert_eq.
    + intros k' Hk'. rewrite load_insert. apply lookup_insert_ne.
      intros E. apply Hk'. symmetry. exact E.
  - exists "cadAmount", {| contentType := "PlainText"; content := amount_message |}.
    eexists. repeat split.
    + right. split; [reflexivity | apply (amount_violation_after_birthday _ _ _ _ Hr)].
    + rewrite load_insert. apply lookup_insert_eq.
    + intros k' Hk'. rewrite load_insert. apply lookup_insert_ne.
      intros E. apply Hk'. symmetry. exact E.
Qed.

Lemma convert_cad_elicits_violated_slot_witness :
  let w := sample_world in
  let req := sample_request "DialogCodeHook" in
  let h := sample_heap (PStr "1990-01-01") (PStr "-1") in
  invocationSource req = "DialogCodeHook"
  /\ load (get_slots req) h !! Some "birthday" = Some (PStr "1990-01-01")
  /\ load (get_slots req) h !! Some "cadAmount" = Some (PStr "-1")
  /\ validate_data w (PStr "1990-01-01") (PStr "-1") req = Ok amount_violation
  /\ isValid amount_violation = false
  /\ exists k msg h',
       violatedSlot amount_violation = Some k /\ message amount_violation = Some msg
       /\ convert_cad w req h =
            (Ok {| response_sessionAttributes := sessionAttributes req;
                   dialogAction :=
                     ElicitSlot (currentIntent_name req) (get_slots req) (Some k) msg |},
             h')
       /\ (k = "birthday"
           \/ (k = "cadAmount" /\ validate_data w (PStr "1990-01-01") PNone req = Ok valid_result))
       /\ load (get_slots req) h' !! Some k = Some PNone
       /\ forall k', k' <> Some k ->
            load (get_slots req) h' !! k' = load (get_slots req) h !! k'.
Proof.
  intros w req h.
  assert (Hs : invocationSource req = "DialogCodeHook") by reflexivity.
  assert (Hb : load (get_slots req) h !! Some "birthday" = Some (PStr "1990-01-01"))
    by (vm_compute; reflexivity).
  assert (Ha : load (get_slots req) h !! Some "cadAmount" = Some (PStr "-1"))
    by (vm_compute; reflexivity).
  assert (Hr : validate_data w (PStr "1990-01-01") (PStr "-1") req = Ok amount_violation)
    by (vm_compute; reflexivity).
  assert (Hi : isValid amount_violation = false) by reflexivity.
  repeat (split; [assumption |]).
  exact (convert_cad_elicits_violated_slot w req h _ _ _ Hs Hb Ha Hr Hi).
Defined.

(** C6. In the validation phase, when the slots pass validation,
    [convert_cad] returns a [Delegate] response that carries the slot
    dictionary of the request, whose content is left as it was, and the
    session attributes of the request. *)
Theorem convert_cad_delegates w req h b a r :
  invocationSource req = "DialogCodeHook" ->
  load (get_slots req) h !! Some "birthday" = Some b ->
  load (get_slots req) h !! Some "cadAmount" = Some a ->
  validate_data w b a req = Ok r ->
  isValid r = true ->
  convert_cad w req h =
    (Ok {| response_sessionAttributes := sessionAttributes req;
           dialogAction := Delegate (currentIntent_slots req) |},
     h).
Proof.
  intros Hsrc Hb Ha Hr Hv.
  rewrite (convert_cad_reads_slots _ _ _ _ _ Hb Ha), Hsrc, Hr.
  cbn [String.eqb Ascii.eqb Bool.eqb]. run_M. rewrite Hv. reflexivity.
Qed.

Lemma convert_cad_delegates_witness :
  let w := sample_world in
  let req := sample_request "DialogCodeHook" in
  let h := sample_heap (PStr "1990-01-01") (PStr "1000") in
  invocationSource req = "DialogCodeHook"
  /\ load (get_slots req) h !! Some "birthday" = Some (PStr "1990-01-01")
  /\ load (get_slots req) h !! Some "cadAmount" = Some (PStr "1000")
  /\ validate_data w (PStr "1990-01-01") (PStr "1000") req = Ok valid_result
  /\ isValid valid_result = true
  /\ convert_cad w req h =
       (Ok {| response_sessionAttributes := sessionAttributes req;
              dialogAction := Delegate (currentIntent_slots req) |},
        h).
Proof.
  intros w req h.
  assert (Hs : invocationSource req = "DialogCodeHook") by reflexivity.
  assert (Hb : load (get_slots req) h !! Some "birthday" = Some (PStr "1990-01-01"))
    by (vm_compute; reflexivity).
  assert (Ha : load (get_slots req) h !! Some "cadAmount" = Some (PStr "1000"))
    by (vm_compute; reflexivity).
  assert (Hr : validate_data w (PStr "1990-01-01") (PStr "1000") req = Ok valid_result)
    by (vm_compute; reflexivity).
  assert (Hi : isValid valid_result = true) by reflexivity.
  repeat (split; [assumption |]).
  exact (convert_cad_delegates w req h _ _ _ Hs Hb Ha Hr Hi).
Defined.

(** C7. For an intent name other than "convertCAD", [dispatch] raises the
    exception whose text names the intent; it returns no response and
    changes nothing. *)
Theorem dispatch_unsupported_intent w req h :
  currentIntent_name req <> "convertCAD" ->
  dispatch w req h =
    (Raise (Exception ("Intent with name " ++ currentIntent_name req ++ " not supported")),
     h).
Proof.
  intros Hname. unfold dispatch.
  destruct (String.eqb_spec (currentIntent_name req) "convertCAD") as [E | _];
    [destruct (Hname E) | reflexivity].
Qed.

Lemma dispatch_unsupported_intent_witness :
  let req := {| currentIntent_name := "orderPizza";
                currentIntent_slots := 1%positive;
                invocationSource := "DialogCodeHook";
                sessionAttributes := None |} in
  currentIntent_name req <> "convertCAD"
  /\ dispatch sample_world req (sample_heap PNone PNone) =
       (Raise (Exception "Intent with name orderPizza not supported"),
        sample_heap PNone PNone).
Proof.
  intros req.
  assert (H : currentIntent_name req <> "convertCAD") by (cbn; discriminate).
  split; [exact H |].
  exact (dispatch_unsupported_intent sample_world req (sample_heap PNone PNone) H).
Defined.

(** C2, as the code has it. In the fulfillment phase (any
    [invocationSource] other than "DialogCodeHook"), when the amount slot
    holds a string and the price service yields a price other than zero,
    [convert_cad] returns a [Close] response with fulfillment state
    "Fulfilled" and the session attributes of the request; its message is
    the template filled with the [repr] of [round(amount / price, 4)] and
    with the amount string as it was given; the slot dictionary is left as
    it was. *)
Theorem convert_cad_fulfills w req h b text price :
  invocationSource req <> "DialogCodeHook" ->
  load (get_slots req) h !! Some "birthday" = Some b ->
  load (get_slots req) h !! Some "cadAmount" = Some (PStr text) ->
  get_btcprice w = Ok price ->
  PyFloat.is_zero price = false ->
  convert_cad w req h =
    (Ok {| response_sessionAttributes := sessionAttributes req;
           dialogAction :=
             Close "Fulfilled"
               {| contentType := "PlainText";
                  content :=
                    close_prefix
                    ++ PyFloat.repr
                         (PyFloat.round
                            (SFdiv PyFloat.prec PyFloat.emax
                               (amount_of_string text) price) 4)
                    ++ close_middle ++ text ++ close_suffix |} |},
     h).
Proof.
  intros Hsrc Hb Ha Hprice Hnz.
  rewrite (convert_cad_reads_slots _ _ _ _ _ Hb Ha).
  destruct (String.eqb_spec (invocationSource req) "DialogCodeHook") as [E | _];
    [destruct (Hsrc E) |].
  run_M. rewrite parse_float_str, Hprice.
  unfold PyFloat.truediv. rewrite Hnz. reflexivity.
Qed.

Lemma convert_cad_fulfills_witness :
  let w := sample_world in
  let req := sample_request "FulfillmentCodeHook" in
  let h := sample_heap (PStr "1990-01-01") (PStr "1000") in
  invocationSource req <> "DialogCodeHook"
  /\ load (get_slots req) h !! Some "birthday" = Some (PStr "1990-01-01")
  /\ load (get_slots req) h !! Some "cadAmount" = Some (PStr "1000")
  /\ get_btcprice w = Ok price_50000
  /\ PyFloat.is_zero price_50000 = false
  /\ PyFloat.repr price_50000 = "50000.0"
  /\ convert_cad w req h =
       (Ok {| response_sessionAttributes := None;
              dialogAction :=
                Close "Fulfilled"
                  {| contentType := "PlainText";
                     content :=
                       close_prefix ++ "0.02" ++ close_middle ++ "1000"
                         ++ close_suffix |} |},
        h).
Proof.
  intros w req h.
  assert (Hs : invocationSource req <> "DialogCodeHook") by (cbn; discriminate).
  assert (Hb : load (get_slots req) h !! Some "birthday" = Some (PStr "1990-01-01"))
    by (vm_compute; reflexivity).
  assert (Ha : load (get_slots req) h !! Some "cadAmount" = Some (PStr "1000"))
    by (vm_compute; reflexivity).
  assert (Hp : get_btcprice w = Ok price_50000) by reflexivity.
  assert (Hz : PyFloat.is_zero price_50000 = false) by reflexivity.
  repeat (split; [assumption |]).
  split; [vm_compute; reflexivity |].
  rewrite (convert_cad_fulfills w req h _ _ _ Hs Hb Ha Hp Hz).
  assert (Hrepr : PyFloat.repr
                    (PyFloat.round
                       (SFdiv PyFloat.prec PyFloat.emax (amount_of_string "1000")
                          price_50000) 4) = "0.02") by (vm_compute; reflexivity).
  rewrite Hrepr. reflexivity.
Defined.

(** C2 fails as stated: in the fulfillment phase an empty amount slot
    makes [float(None)] raise [TypeError], a price of zero makes the division
    raise [ZeroDivisionError], and an error of the price service is passed
    on; no [Close] response is returned then. *)
Lemma convert_cad_fulfillment_raises :
  let req := sample_request "FulfillmentCodeHook" in
  invocationSource req <> "DialogCodeHook"
  /\ (let h := sample_heap (PStr "1990-01-01") PNone in
      dispatch sample_world req h = (Raise TypeError, h))
  /\ (let h := sample_heap (PStr "1990-01-01") (PStr "1000") in
      dispatch {| now := sample_now; price_reply := Ok (PFloat PyFloat.zero) |} req h
        = (Raise ZeroDivisionError, h))
  /\ (let h := sample_heap (PStr "1990-01-01") (PStr "1000") in
      dispatch {| now := sample_now; price_reply := Raise RequestError |} req h
        = (Raise RequestError, h)).
Proof.
  intros req. split; [cbn; discriminate |].
  assert (Hb : forall a,
             load (get_slots req) (sample_heap (PStr "1990-01-01") a) !! Some "birthday"
             = Some (PStr "1990-01-01")) by (intros a; vm_compute; reflexivity).
  assert (Ha : forall a,
             load (get_slots req) (sample_heap (PStr "1990-01-01") a) !! Some "cadAmount"
             = Some a) by (intros a; vm_compute; reflexivity).
  assert (Hrun : forall w a,
             dispatch w req (sample_heap (PStr "1990-01-01") a)
             = convert_cad w req (sample_heap (PStr "1990-01-01") a)) by reflexivity.
  split; [| split]; intros h; subst h;
    rewrite Hrun, (convert_cad_reads_slots _ _ _ _ _ (Hb _) (Ha _)).
  - reflexivity.
  - cbn [String.eqb Ascii.eqb Bool.eqb invocationSource req sample_request].
    run_M. rewrite parse_float_str. reflexivity.
  - cbn [String.eqb Ascii.eqb Bool.eqb invocationSource req sample_request].
    run_M. rewrite parse_float_str. reflexivity.
Qed.

(** C9 fails as stated: after a failed validation the slot dictionary of the
    request itself no longer holds the amount that it held before. *)
Lemma dispatch_clears_slot_of_request :
  let req := sample_request "DialogCodeHook" in
  let h := sample_heap PNone (PStr "-1") in
  load (get_slots req) h !! Some "cadAmount" = Some (PStr "-1")
  /\ load (get_slots req) (snd (dispatch sample_world req h)) !! Some "cadAmount"
       = Some PNone
  /\ load (get_slots req) (snd (dispatch sample_world req h))
       <> load (get_slots req) h.
Proof.
  intros req h.
  assert (H0 : load (get_slots req) h !! Some "cadAmount" = Some (PStr "-1"))
    by (vm_compute; reflexivity).
  assert (H1 : load (get_slots req) (snd (dispatch sample_world req h))
                 !! Some "cadAmount" = Some PNone)
    by (vm_compute; reflexivity).
  split; [exact H0 |]. split; [exact H1 |].
  intros E. rewrite E, H0 in H1. discriminate.
Qed.

(** C9, as the code has it. [dispatch] writes to the heap in one case only:
    when it returns an [ElicitSlot] response, the slot dictionary of the
    request has been updated in place, the elicited slot now holding [None].
    On every other outcome (a [Delegate] or [Close] response, or an
    exception) the heap, and with it the slot dictionary of the request, is
    as before. *)
Theorem dispatch_heap_effect w req h :
  snd (dispatch w req h) =
    match fst (dispatch w req h) with
    | Ok {| dialogAction := ElicitSlot _ _ k _ |} =>
        <[get_slots req := <[k := PNone]> (load (get_slots req) h)]> h
    | _ => h
    end.
Proof.
  unfold dispatch.
  destruct (String.eqb (currentIntent_name req) "convertCAD"); [| reflexivity].
  destruct (load (get_slots req) h !! Some "birthday") as [b|] eqn:Hb;
    [| rewrite (convert_cad_missing_birthday _ _ _ Hb); reflexivity].
  destruct (load (get_slots req) h !! Some "cadAmount") as [a|] eqn:Ha;
    [| rewrite (convert_cad_missing_amount _ _ _ _ Hb Ha); reflexivity].
  rewrite (convert_cad_reads_slots _ _ _ _ _ Hb Ha).
  destruct (String.eqb (invocationSource req) "DialogCodeHook").
  - run_M.
    destruct (validate_data w b a req) as [r|e|] eqn:Hr; try reflexivity.
    destruct (validate_data_cases _ _ _ _ _ Hr) as [-> | [-> | ->]]; reflexivity.
  - run_M.
    destruct (parse_float a) as [x|e|]; try reflexivity.
    destruct (get_btcprice w) as [p|e|]; try reflexivity.
    destruct (PyFloat.truediv x p); reflexivity.
Qed.

(** ** Further properties of [parse_float] and [validate_data] *)



Lemma validate_amount_accepted a :
  validate_amount a = Ok valid_result <-> amount_accepted a.
Proof.
  unfold validate_amount, amount_accepted, build_validation_result, valid_result.
  destruct (parse_float_outcome a) as [[x Hx] | Hx].
  - rewrite Hx. split.
    + intros H. destruct a; [left; reflexivity | right | right];
        (exists x; split; [reflexivity |]);
        destruct (PyFloat.le x PyFloat.zero); [discriminate | reflexivity | discriminate | reflexivity].
    + intros [-> | (x' & Hx' & Hle)]; [reflexivity |].
      injection Hx' as <-. rewrite Hle. destruct a; reflexivity.
  - destruct a as [|text|y];
      [| rewrite parse_float_str in Hx; discriminate
       | rewrite parse_float_float in Hx; discriminate].
    split; [left; reflexivity | reflexivity].
Qed.

Lemma validate_amount_rejected a :
  validate_amount a = Ok amount_violation <-> amount_rejected a.
Proof.
  unfold validate_amount, amount_rejected, build_validation_result, amount_violation.
  destruct a as [|text|y].
  - split; [discriminate | intros [H _]; destruct (H eq_refl)].
  - rewrite parse_float_str. split.
    + intros H. split; [discriminate |]. eexists. split; [reflexivity |].
      destruct (PyFloat.le _ _); [reflexivity | discriminate].
    + intros (_ & x & Hx & Hle). injection Hx as <-. rewrite Hle. reflexivity.
  - rewrite parse_float_float. split.
    + intros H. split; [discriminate |]. eexists. split; [reflexivity |].
      destruct (PyFloat.le _ _); [reflexivity | discriminate].
    + intros (_ & x & Hx & Hle). injection Hx as <-. rewrite Hle. reflexivity.
Qed.

(** [validate_data] either reports an under-age birthday or goes on to the
    amount. *)
Lemma validate_data_birthday_split w b a req r :
  validate_data w b a req = Ok r ->
  (underage w b /\ r = birthday_violation)
  \/ (birthday_ok w b /\ validate_amount a = Ok r).
Proof.
  unfold validate_data. destruct b as [|text|x]; [| | discriminate].
  - intros H. right. split; [left; reflexivity | exact H].
  - destruct (PyDate.strptime_ymd text) as [d|e|] eqn:Hd; try discriminate.
    destruct (PyDate.relativedelta_years (now w) d) as [age|e|] eqn:Hage; try discriminate.
    assert (Hof : age_of w text = Ok age) by (unfold age_of; rewrite Hd; exact Hage).
    destruct (Z.ltb_spec age 18) as [Hlt | Hge]; intros H.
    + left. split; [exists text, age; auto |].
      unfold build_validation_result, birthday_violation in *. congruence.
    + right. split; [right; exists text, age; auto | exact H].
Qed.

(** X2. [validate_data] returns the valid result exactly when the birthday
    is absent or gives an age of at least 18, and the amount is absent or is
    not at or below zero (a value above zero, or a NaN). *)
Theorem validate_data_valid_iff w b a req :
  validate_data w b a req = Ok valid_result <-> birthday_ok w b /\ amount_accepted a.
Proof.
  split.
  - intros H. destruct (validate_data_birthday_split _ _ _ _ _ H) as [[_ E] | [Hb Ha]];
      [discriminate |].
    split; [exact Hb | apply validate_amount_accepted, Ha].
  - intros [Hb Ha]. rewrite validate_data_birthday_ok by exact Hb.
    apply validate_amount_accepted, Ha.
Qed.

(** X3. [validate_data] reports the slot "cadAmount" exactly when the
    birthday is absent or of age and the amount is present and at or below
    zero. *)
Theorem validate_data_amount_violation_iff w b a req :
  validate_data w b a req = Ok amount_violation <-> birthday_ok w b /\ amount_rejected a.
Proof.
  split.
  - intros H. destruct (validate_data_birthday_split _ _ _ _ _ H) as [[_ E] | [Hb Ha]];
      [discriminate |].
    split; [exact Hb | apply validate_amount_rejected, Ha].
  - intros [Hb Ha]. rewrite validate_data_birthday_ok by exact Hb.
    apply validate_amount_rejected, Ha.
Qed.

(** X4. [validate_data] reports the slot "birthday" exactly when the
    birthday is a string that [strptime] reads and whose age is below 18. *)
Theorem validate_data_birthday_violation_iff w b a req :
  validate_data w b a req = Ok birthday_violation <-> underage w b.
Proof.
  split.
  - intros H. destruct (validate_data_birthday_split _ _ _ _ _ H) as [[Hu _] | [_ Ha]];
      [exact Hu |].
    destruct (validate_amount_cases _ _ Ha); discriminate.
  - intros (text & age & -> & Hage & Hlt). unfold age_of in Hage. unfold validate_data.
    destruct (PyDate.strptime_ymd text) as [d|e|]; try discriminate.
    rewrite Hage. destruct (Z.ltb_spec age 18); [reflexivity | lia].
Qed.

(** ** The age check and the 18th birthday *)

Module PyDateAge.
Import PyDate. Import PyDateFacts.

Lemma set_months_years_nonpos k : k <= 0 -> fst (set_months k) <= 0.
Proof.
  intros Hk. unfold set_months.
  destruct (Z.ltb_spec 11 (Z.abs k)) as [Hbig | Hsmall]; cbn [fst]; [| lia].
  assert (Hs : Z.sgn k = -1) by lia. rewrite Hs. div_lia.
Qed.

(** A birth date in the future gives an age of zero or less. *)
Lemma relativedelta_years_future dt1 dt2 :
  valid_date dt1 = true -> valid_date dt2 = true ->
  lt dt1 dt2 = true ->
  exists years, relativedelta_years dt1 dt2 = Ok years /\ years <= 0.
Proof.
  intros V1 V2 Hlt.
  pose proof (valid_date_bounds _ V1) as (Hy1 & Hm1 & _).
  pose proof (valid_date_bounds _ V2) as (Hy2 & Hm2 & _).
  unfold relativedelta_years. rewrite Hlt.
  set (k := (year dt1 - year dt2) * 12 + (month dt1 - month dt2)).
  assert (Hk : month_index dt2 + k = month_index dt1) by (unfold month_index, k; lia).
  assert (Hk0 : k <= 0).
  { destruct (Z.le_gt_cases k 0) as [|Hpos]; [assumption | exfalso].
    rewrite (lt_asym dt2 dt1) in Hlt; [discriminate |].
    apply lt_by_month; lia. }
  assert (Hy0 : year (shifted k dt2) = year dt1)
    by (rewrite year_shifted, Hk; unfold month_index; div_lia).
  cbn [adjust_months]. rewrite (radd_set_months _ _ Hm2), Hy0.
  destruct (Z.leb_spec 1 (year dt1)); [| lia].
  destruct (Z.leb_spec (year dt1) 9999); [| lia]. cbn [andb].
  destruct (gt dt1 (shifted k dt2)) eqn:Hgt;
    [| eexists; split; [reflexivity | apply set_months_years_nonpos, Hk0]].
  assert (Hneg : k <= -1).
  { destruct (Z.eq_dec k 0) as [E | E]; [exfalso | lia].
    rewrite E, (shifted_0 _ V2) in Hgt. unfold gt in Hgt.
    rewrite (lt_asym _ _ Hlt) in Hgt. discriminate. }
  rewrite (radd_set_months _ _ Hm2).
  assert (Hy' : 1 <= year (shifted (k + 1) dt2) <= 9999).
  { rewrite year_shifted. unfold month_index in *. div_lia. }
  destruct (Z.leb_spec 1 (year (shifted (k + 1) dt2))); [| lia].
  destruct (Z.leb_spec (year (shifted (k + 1) dt2)) 9999); [| lia]. cbn [andb].
  unfold gt. rewrite (lt_asym dt1 (shifted (k + 1) dt2)).
  - eexists; split; [reflexivity | apply set_months_years_nonpos; lia].
  - apply lt_by_month; [lia | apply month_shifted |].
    rewrite month_index_shifted. lia.
Qed.

Lemma eighteenth_birthday_shifted d :
  valid_date d = true -> eighteenth_birthday d = shifted 216 d.
Proof.
  intros V. pose proof (valid_date_bounds _ V) as (Hy & Hm & _).
  unfold eighteenth_birthday, shifted, month_index.
  assert (Ey : (12 * year d + month d - 1 + 216) / 12 = year d + 18) by div_lia.
  assert (Em : (12 * year d + month d - 1 + 216) mod 12 + 1 = month d) by div_lia.
  cbv zeta. rewrite Ey, Em. reflexivity.
Qed.

(** The age is below 18 exactly when the clock is before the 18th
    birthday. *)
Lemma age_below_18 dt1 dt2 :
  valid_date dt1 = true -> valid_date dt2 = true ->
  exists age, relativedelta_years dt1 dt2 = Ok age
              /\ (age <? 18) = lt dt1 (eighteenth_birthday dt2).
Proof.
  intros V1 V2.
  pose proof (valid_date_bounds _ V1) as (Hy1 & Hm1 & _).
  pose proof (valid_date_bounds _ V2) as (Hy2 & Hm2 & _).
  rewrite (eighteenth_birthday_shifted _ V2).
  destruct (lt dt1 dt2) eqn:Hlt.
  - destruct (relativedelta_years_future _ _ V1 V2 Hlt) as (age & Hage & Hle).
    exists age. split; [exact Hage |].
    destruct (Z.ltb_spec age 18); [| lia]. symmetry.
    apply lt_by_month; [lia | apply month_shifted |].
    rewrite month_index_shifted.
    assert (Hk0 : month_index dt1 <= month_index dt2); [| lia].
    destruct (Z.le_gt_cases (month_index dt1) (month_index dt2)) as [|Hpos];
      [assumption | exfalso].
    rewrite (lt_asym dt2 dt1) in Hlt; [discriminate | apply lt_by_month; lia].
  - destruct (relativedelta_years_past _ _ V1 V2 Hlt) as [Hage Hnn].
    set (k := month_index dt1 - month_index dt2) in *.
    eexists. split; [exact Hage |].
    destruct (Z.lt_trichotomy k 216) as [Hk | [Hk | Hk]].
    + rewrite (lt_by_month dt1 (shifted 216 dt2));
        [| lia | apply month_shifted | rewrite month_index_shifted; unfold k in Hk; lia].
      destruct (lt dt1 (shifted k dt2)); apply Z.ltb_lt; div_lia.
    + rewrite Hk in *. destruct (lt dt1 (shifted 216 dt2)); reflexivity.
    + rewrite (lt_asym (shifted 216 dt2) dt1);
        [| apply lt_by_month;
           [apply month_shifted | lia | rewrite month_index_shifted; unfold k in Hk; lia]].
      destruct (lt dt1 (shifted k dt2)); apply Z.ltb_ge; div_lia.
Qed.

End PyDateAge.

(** X5. With a clock that shows a date of the calendar, a birthday that
    [strptime] reads is reported exactly when the clock is before the 18th
    birthday; from that day on [validate_data] goes on to the amount. *)
Theorem validate_data_eighteenth_birthday w text d a req :
  PyDate.valid_date (now w) = true ->
  PyDate.strptime_ymd text = Ok d ->
  validate_data w (PStr text) a req =
    if PyDate.lt (now w) (eighteenth_birthday d)
    then Ok birthday_violation
    else validate_amount a.
Proof.
  intros Hnow Hd.
  destruct (PyDateAge.age_below_18 _ _ Hnow (PyDateFacts.strptime_ymd_valid _ _ Hd))
    as (age & Hage & Hlt).
  unfold validate_data. rewrite Hd, Hage, Hlt. reflexivity.
Qed.

Lemma validate_data_eighteenth_birthday_witness :
  PyDate.valid_date (now sample_world) = true
  /\ PyDate.strptime_ymd "2002-06-15" = Ok (PyDate.mk_datetime 2002 6 15 0 0 0 0)
  /\ eighteenth_birthday (PyDate.mk_datetime 2002 6 15 0 0 0 0)
       = PyDate.mk_datetime 2020 6 15 0 0 0 0
  /\ validate_data sample_world (PStr "2002-06-15") PNone (sample_request "DialogCodeHook")
       = Ok valid_result.
Proof.
  assert (Hn : PyDate.valid_date (now sample_world) = true) by reflexivity.
  assert (Hd : PyDate.strptime_ymd "2002-06-15" = Ok (PyDate.mk_datetime 2002 6 15 0 0 0 0))
    by (vm_compute; reflexivity).
  split; [exact Hn |]. split; [exact Hd |]. split; [reflexivity |].
  rewrite (validate_data_eighteenth_birthday sample_world "2002-06-15" _ PNone _ Hn Hd).
  reflexivity.
Defined.

(** X6. With a clock that shows a date of the calendar, [validate_data]
    raises for the birthday only: [ValueError] for a string that [strptime]
    cannot read, [TypeError] for a birthday that is not a string; for every
    other birthday it returns a result, whatever the amount is. *)
Theorem validate_data_raises_for_birthday_only w b a req :
  PyDate.valid_date (now w) = true ->
  match b with
  | PNone => exists r, validate_data w b a req = Ok r
  | PStr text =>
      match PyDate.strptime_ymd text with
      | Ok _ => exists r, validate_data w b a req = Ok r
      | _ => validate_data w b a req = Raise ValueError
      end
  | PFloat _ => validate_data w b a req = Raise TypeError
  end.
Proof.
  intros Hnow. destruct b as [|text|x].
  - apply validate_data_total_no_birthday.
  - destruct (strptime_ymd_outcome text) as [[d Hd] | Hd]; rewrite Hd.
    + apply (validate_data_total _ _ _ _ _ Hnow Hd).
    + unfold validate_data. rewrite Hd. reflexivity.
  - reflexivity.
Qed.

Lemma validate_data_raises_for_birthday_only_witness :
  PyDate.valid_date (now sample_world) = true
  /\ validate_data sample_world (PFloat price_50000) (PStr "abc")
       (sample_request "DialogCodeHook") = Raise TypeError.
Proof.
  assert (Hn : PyDate.valid_date (now sample_world) = true) by reflexivity.
  split; [exact Hn |].
  exact (validate_data_raises_for_birthday_only sample_world (PFloat price_50000)
           (PStr "abc") (sample_request "DialogCodeHook") Hn).
Defined.

(** ** Further properties of the handler *)

(** Every run of [convert_cad] is one of these. *)
Lemma convert_cad_runs w req h : convert_cad_run w req h (convert_cad w req h).
Proof.
  destruct (load (get_slots req) h !! Some "birthday") as [b|] eqn:Hb;
    [| rewrite (convert_cad_missing_birthday _ _ _ Hb); apply run_no_birthday, Hb].
  destruct (load (get_slots req) h !! Some "cadAmount") as [a|] eqn:Ha;
    [| rewrite (convert_cad_missing_amount _ _ _ _ Hb Ha); eapply run_no_amount; eassumption].
  rewrite (convert_cad_reads_slots _ _ _ _ _ Hb Ha).
  destruct (String.eqb_spec (invocationSource req) "DialogCodeHook") as [Hsrc | Hsrc].
  - run_M. destruct (validate_data w b a req) as [r|e|] eqn:Hr.
    + destruct (validate_data_cases _ _ _ _ _ Hr) as [-> | [-> | ->]]; cbn.
      * eapply run_delegate; eassumption.
      * eapply (run_elicit _ _ _ b a birthday_violation "birthday"); eauto.
      * eapply (run_elicit _ _ _ b a amount_violation "cadAmount"); eauto.
    + eapply run_validation_raises; eassumption.
    + eapply run_validation_fuel; eassumption.
  - run_M. destruct (parse_float_outcome a) as [[x Hx] | Hx]; rewrite Hx.
    + destruct (get_btcprice w) as [p|e|] eqn:Hp.
      * unfold PyFloat.truediv. destruct (PyFloat.is_zero p) eqn:Hz.
        -- eapply run_zero_division; eassumption.
        -- eapply run_close; eassumption.
      * eapply run_price_raises; eassumption.
      * eapply run_price_fuel; eassumption.
    + destruct a as [|text|y];
        [| rewrite parse_float_str in Hx; discriminate
         | rewrite parse_float_float in Hx; discriminate].
      eapply run_amount_raises; eassumption.
Qed.

(** The two slots of the sample heap. *)
Lemma sample_heap_birthday source b a :
  load (get_slots (sample_request source)) (sample_heap b a) !! Some "birthday" = Some b.
Proof.
  unfold load, sample_heap, get_slots, sample_request. cbn [currentIntent_slots].
  rewrite lookup_singleton_eq. cbn [default]. apply lookup_insert_eq.
Qed.

Lemma sample_heap_amount source b a :
  load (get_slots (sample_request source)) (sample_heap b a) !! Some "cadAmount" = Some a.
Proof.
  unfold load, sample_heap, get_slots, sample_request. cbn [currentIntent_slots].
  rewrite lookup_singleton_eq. cbn [default].
  etrans; [apply lookup_insert_ne; discriminate | apply lookup_singleton_eq].
Qed.

Lemma sample_run source w b a :
  lambda_handler w (sample_request source) (sample_heap b a)
  = convert_cad w (sample_request source) (sample_heap b a).
Proof. reflexivity. Qed.

Lemma sample_delegate_run :
  lambda_handler sample_world (sample_request "DialogCodeHook")
    (sample_heap (PStr "1990-01-01") (PStr "1000"))
  = (Ok (delegate None 1%positive), sample_heap (PStr "1990-01-01") (PStr "1000")).
Proof.
  rewrite sample_run.
  rewrite (convert_cad_reads_slots _ _ _ _ _
             (sample_heap_birthday _ _ _) (sample_heap_amount _ _ _)).
  assert (Hr : validate_data sample_world (PStr "1990-01-01") (PStr "1000")
                 (sample_request "DialogCodeHook") = Ok valid_result)
    by (vm_compute; reflexivity).
  cbn [String.eqb Ascii.eqb Bool.eqb invocationSource sample_request].
  run_M. rewrite Hr. reflexivity.
Qed.

Lemma sample_elicit_run :
  lambda_handler sample_world (sample_request "DialogCodeHook")
    (sample_heap (PStr "2010-01-01") (PStr "-1"))
  = (Ok (elicit_slot None "convertCAD" 1%positive (Some "birthday")
           {| contentType := "PlainText"; content := birthday_message |}),
     <[1%positive := <[Some "birthday" := PNone]>
                       (load 1%positive (sample_heap (PStr "2010-01-01") (PStr "-1")))]>
       (sample_heap (PStr "2010-01-01") (PStr "-1"))).
Proof.
  rewrite sample_run.
  rewrite (convert_cad_reads_slots _ _ _ _ _
             (sample_heap_birthday _ _ _) (sample_heap_amount _ _ _)).
  assert (Hr : validate_data sample_world (PStr "2010-01-01") (PStr "-1")
                 (sample_request "DialogCodeHook") = Ok birthday_violation)
    by (vm_compute; reflexivity).
  cbn [String.eqb Ascii.eqb Bool.eqb invocationSource sample_request].
  run_M. rewrite Hr. reflexivity.
Qed.

Lemma dispatch_convert_cad w req h :
  currentIntent_name req = "convertCAD" -> dispatch w req h = convert_cad w req h.
Proof. intros E. unfold dispatch. rewrite E. reflexivity. Qed.

Lemma lambda_handler_returns w req h resp h' :
  lambda_handler w req h = (Ok resp, h') ->
  currentIntent_name req = "convertCAD" /\ convert_cad w req h = (Ok resp, h').
Proof.
  unfold lambda_handler, dispatch.
  destruct (String.eqb_spec (currentIntent_name req) "convertCAD") as [E | E];
    [intros H; split; assumption | discriminate].
Qed.



(** X8. In the validation phase a birthday that [strptime] cannot read makes
    [lambda_handler] raise [ValueError]: no response is returned and the
    slots are left as they were. *)
Theorem lambda_handler_malformed_birthday w req h text a :
  currentIntent_name req = "convertCAD" ->
  invocationSource req = "DialogCodeHook" ->
  load (get_slots req) h !! Some "birthday" = Some (PStr text) ->
  load (get_slots req) h !! Some "cadAmount" = Some a ->
  (forall d, PyDate.strptime_ymd text <> Ok d) ->
  lambda_handler w req h = (Raise ValueError, h).
Proof.
  intros Hname Hsrc Hb Ha Hbad.
  unfold lambda_handler. rewrite (dispatch_convert_cad _ _ _ Hname).
  rewrite (convert_cad_reads_slots _ _ _ _ _ Hb Ha), Hsrc.
  cbn [String.eqb Ascii.eqb Bool.eqb]. run_M.
  unfold validate_data.
  destruct (strptime_ymd_outcome text) as [[d Hd] | Hd];
    [destruct (Hbad d Hd) | rewrite Hd; reflexivity].
Qed.

Lemma lambda_handler_malformed_birthday_witness :
  let req := sample_request "DialogCodeHook" in
  let h := sample_heap (PStr "June 15, 1990") (PStr "1000") in
  currentIntent_name req = "convertCAD"
  /\ invocationSource req = "DialogCodeHook"
  /\ load (get_slots req) h !! Some "birthday" = Some (PStr "June 15, 1990")
  /\ load (get_slots req) h !! Some "cadAmount" = Some (PStr "1000")
  /\ (forall d, PyDate.strptime_ymd "June 15, 1990" <> Ok d)
  /\ lambda_handler sample_world req h = (Raise ValueError, h).
Proof.
  intros req h.
  assert (Hn : currentIntent_name req = "convertCAD") by reflexivity.
  assert (Hs : invocationSource req = "DialogCodeHook") by reflexivity.
  assert (Hb : load (get_slots req) h !! Some "birthday" = Some (PStr "June 15, 1990"))
    by (vm_compute; reflexivity).
  assert (Ha : load (get_slots req) h !! Some "cadAmount" = Some (PStr "1000"))
    by (vm_compute; reflexivity).
  assert (Hd : forall d, PyDate.strptime_ymd "June 15, 1990" <> Ok d)
    by (intros d; vm_compute; discriminate).
  repeat (split; [assumption |]).
  exact (lambda_handler_malformed_birthday sample_world req h _ _ Hn Hs Hb Ha Hd).
Defined.

(** X9. Every response that [lambda_handler] returns carries the session
    attributes of the event. *)
Theorem lambda_handler_session_attributes w req h resp h' :
  lambda_handler w req h = (Ok resp, h') ->
  response_sessionAttributes resp = sessionAttributes req.
Proof.
  intros H. apply lambda_handler_returns in H as [_ H].
  pose proof (convert_cad_runs w req h) as Hrun. rewrite H in Hrun.
  inversion Hrun; reflexivity.
Qed.

(** X10. The phase decides the kind of the response: [ElicitSlot] (for the
    intent of the event, its slot dictionary and one of the two slots) and
    [Delegate] are returned in the validation phase only, [Close] (with
    "Fulfilled" and a plain-text message) in the fulfillment phase only. *)
Theorem lambda_handler_response_kind w req h resp h' :
  lambda_handler w req h = (Ok resp, h') ->
  match dialogAction resp with
  | ElicitSlot name l k _ =>
      invocationSource req = "DialogCodeHook"
      /\ name = "convertCAD" /\ l = get_slots req
      /\ (k = Some "birthday" \/ k = Some "cadAmount")
  | Delegate l => invocationSource req = "DialogCodeHook" /\ l = get_slots req
  | Close state msg =>
      invocationSource req <> "DialogCodeHook"
      /\ state = "Fulfilled" /\ contentType msg = "PlainText"
  end.
Proof.
  intros H. apply lambda_handler_returns in H as [Hname H].
  pose proof (convert_cad_runs w req h) as Hrun. rewrite H in Hrun.
  inversion Hrun; subst; cbn.
  - split; [assumption | reflexivity].
  - repeat split; try assumption.
    match goal with
    | Hk : _ \/ _ |- _ => destruct Hk as [[_ ->] | [_ ->]]; [left | right]; reflexivity
    end.
  - repeat split; assumption.
Qed.

Lemma validate_data_clock w w' b a req :
  now w = now w' -> validate_data w b a req = validate_data w' b a req.
Proof. intros E. unfold validate_data. rewrite E. reflexivity. Qed.

Lemma get_btcprice_reply w w' :
  price_reply w = price_reply w' -> get_btcprice w = get_btcprice w'.
Proof. intros E. unfold get_btcprice. rewrite E. reflexivity. Qed.

(** X11. The validation phase does not consult the price service: with the
    same clock, the outcome and the heap are the same whatever the service
    would reply. *)
Theorem validation_ignores_price w w' req h :
  invocationSource req = "DialogCodeHook" ->
  now w = now w' ->
  convert_cad w req h = convert_cad w' req h.
Proof.
  intros Hsrc Hnow.
  destruct (load (get_slots req) h !! Some "birthday") as [b|] eqn:Hb;
    [| rewrite !(convert_cad_missing_birthday _ _ _ Hb); reflexivity].
  destruct (load (get_slots req) h !! Some "cadAmount") as [a|] eqn:Ha;
    [| rewrite !(convert_cad_missing_amount _ _ _ _ Hb Ha); reflexivity].
  rewrite !(convert_cad_reads_slots _ _ _ _ _ Hb Ha), Hsrc.
  cbn [String.eqb Ascii.eqb Bool.eqb].
  rewrite (validate_data_clock w w' _ _ _ Hnow). reflexivity.
Qed.

(** X12. The fulfillment phase validates nothing: with both slots present,
    its outcome depends on the amount and on the reply of the price service
    only, not on the value of the birthday slot nor on the clock, and it
    writes nothing. *)
Theorem fulfillment_ignores_birthday_and_clock w w' req h h' b b' a :
  invocationSource req <> "DialogCodeHook" ->
  price_reply w = price_reply w' ->
  load (get_slots req) h !! Some "birthday" = Some b ->
  load (get_slots req) h' !! Some "birthday" = Some b' ->
  load (get_slots req) h !! Some "cadAmount" = Some a ->
  load (get_slots req) h' !! Some "cadAmount" = Some a ->
  fst (convert_cad w req h) = fst (convert_cad w' req h')
  /\ snd (convert_cad w req h) = h /\ snd (convert_cad w' req h') = h'.
Proof.
  intros Hsrc Hp Hb Hb' Ha Ha'.
  rewrite (convert_cad_reads_slots _ _ _ _ _ Hb Ha).
  rewrite (convert_cad_reads_slots _ _ _ _ _ Hb' Ha').
  destruct (String.eqb_spec (invocationSource req) "DialogCodeHook") as [E | _];
    [destruct (Hsrc E) |].
  run_M. rewrite (get_btcprice_reply w w' Hp).
  destruct (parse_float a) as [x|e|]; [| repeat split ..].
  destruct (get_btcprice w') as [p|e|]; [| repeat split ..].
  destruct (PyFloat.truediv x p); repeat split.
Qed.


Lemma div_nan_l y : SFdiv PyFloat.prec PyFloat.emax S754_nan y = S754_nan.
Proof. reflexivity. Qed.

Lemma div_nan_r x : SFdiv PyFloat.prec PyFloat.emax x S754_nan = S754_nan.
Proof. destruct x; reflexivity. Qed.

Lemma repr_nan : PyFloat.repr S754_nan = "nan".
Proof. reflexivity. Qed.

(** X14. In the fulfillment phase a NaN reaches the message: when the amount
    is a string that [float] rejects, or the price is a NaN, the response is
    a [Close] whose message gives "nan" for the bitcoins. *)
Theorem convert_cad_nan_message w req h b text price :
  invocationSource req <> "DialogCodeHook" ->
  load (get_slots req) h !! Some "birthday" = Some b ->
  load (get_slots req) h !! Some "cadAmount" = Some (PStr text) ->
  get_btcprice w = Ok price ->
  PyFloat.is_zero price = false ->
  PyFloat.of_string text = None \/ price = S754_nan ->
  convert_cad w req h =
    (Ok (close (sessionAttributes req) "Fulfilled"
           {| contentType := "PlainText";
              content := close_prefix ++ "nan" ++ close_middle ++ text ++ close_suffix |}),
     h).
Proof.
  intros Hsrc Hb Ha Hprice Hnz Hnan.
  rewrite (convert_cad_reads_slots _ _ _ _ _ Hb Ha).
  destruct (String.eqb_spec (invocationSource req) "DialogCodeHook") as [E | _];
    [destruct (Hsrc E) |].
  run_M. rewrite parse_float_str, Hprice.
  unfold PyFloat.truediv. rewrite Hnz.
  assert (Hq : SFdiv PyFloat.prec PyFloat.emax (amount_of_string text) price = S754_nan).
  { destruct Hnan as [Hbad | ->]; [| apply div_nan_r].
    unfold amount_of_string. rewrite Hbad. apply div_nan_l. }
  rewrite Hq. unfold close_content, py_str. rewrite round_nan, repr_nan. reflexivity.
Qed.

(** X15. In the fulfillment phase an amount slot that holds [None] raises
    [TypeError], whatever the price service would reply. *)
Theorem convert_cad_absent_amount w req h b :
  invocationSource req <> "DialogCodeHook" ->
  load (get_slots req) h !! Some "birthday" = Some b ->
  load (get_slots req) h !! Some "cadAmount" = Some PNone ->
  convert_cad w req h = (Raise TypeError, h).
Proof.
  intros Hsrc Hb Ha.
  rewrite (convert_cad_reads_slots _ _ _ _ _ Hb Ha).
  destruct (String.eqb_spec (invocationSource req) "DialogCodeHook") as [E | _];
    [destruct (Hsrc E) | reflexivity].
Qed.

(** X16. In the fulfillment phase, with an amount present, an exception of
    the request to the price service is passed on unchanged. *)
Theorem convert_cad_price_failure w req h b a e :
  invocationSource req <> "DialogCodeHook" ->
  load (get_slots req) h !! Some "birthday" = Some b ->
  load (get_slots req) h !! Some "cadAmount" = Some a ->
  a <> PNone ->
  price_reply w = Raise e ->
  convert_cad w req h = (Raise e, h).
Proof.
  intros Hsrc Hb Ha Hsome Hp.
  rewrite (convert_cad_reads_slots _ _ _ _ _ Hb Ha).
  destruct (String.eqb_spec (invocationSource req) "DialogCodeHook") as [E | _];
    [destruct (Hsrc E) |].
  run_M. unfold get_btcprice. rewrite Hp.
  destruct a as [|text|x]; [destruct (Hsome eq_refl) | |].
  - rewrite parse_float_str. reflexivity.
  - rewrite parse_float_float. reflexivity.
Qed.

(** X17. In the fulfillment phase, with an amount present, a price of zero
    (of either sign) raises [ZeroDivisionError], also for an amount that is
    not a number. *)
Theorem convert_cad_zero_price w req h b a price :
  invocationSource req <> "DialogCodeHook" ->
  load (get_slots req) h !! Some "birthday" = Some b ->
  load (get_slots req) h !! Some "cadAmount" = Some a ->
  a <> PNone ->
  get_btcprice w = Ok price ->
  PyFloat.is_zero price = true ->
  convert_cad w req h = (Raise ZeroDivisionError, h).
Proof.
  intros Hsrc Hb Ha Hsome Hp Hz.
  rewrite (convert_cad_reads_slots _ _ _ _ _ Hb Ha).
  destruct (String.eqb_spec (invocationSource req) "DialogCodeHook") as [E | _];
    [destruct (Hsrc E) |].
  run_M. rewrite Hp. unfold PyFloat.truediv.
  destruct a as [|text|x]; [destruct (Hsome eq_refl) | |].
  - rewrite parse_float_str, Hz. reflexivity.
  - rewrite parse_float_float, Hz. reflexivity.
Qed.

(** X18. [lambda_handler] writes to the slot dictionary of the event only:
    every other dictionary of the heap is untouched, the dictionary keeps its
    set of keys, and a value that it holds afterwards is [None] or the value
    that it held before. *)
Theorem lambda_handler_frame w req h :
  let h' := snd (lambda_handler w req h) in
  (forall l, l <> get_slots req -> h' !! l = h !! l)
  /\ dom (load (get_slots req) h') = dom (load (get_slots req) h)
  /\ (forall k v, load (get_slots req) h' !! k = Some v ->
        v = PNone \/ load (get_slots req) h !! k = Some v).
Proof.
  cbv zeta. unfold lambda_handler, dispatch.
  destruct (String.eqb (currentIntent_name req) "convertCAD");
    [| cbn; repeat split; auto].
  destruct (convert_cad_runs w req h); cbn [snd]; try (repeat split; auto; fail).
  match goal with
  | Hk : _ \/ _ |- _ => assert (Hin : is_Some (load (get_slots req) h !! Some k))
                          by (destruct Hk as [[_ ->] | [_ ->]]; eauto)
  end.
  split; [| split].
  - intros l Hl. apply lookup_insert_ne. congruence.
  - rewrite load_insert. apply dom_insert_lookup_L, Hin.
  - intros k' v. rewrite load_insert.
    destruct (decide (Some k = k')) as [<- | Hne].
    + rewrite lookup_insert_eq. intros Hv. injection Hv as <-. left. reflexivity.
    + rewrite lookup_insert_ne by exact Hne. intros Hv. right. exact Hv.
Qed.

(** ** The properties above on sample events *)

Lemma lambda_handler_session_attributes_witness :
  lambda_handler sample_world (sample_request "DialogCodeHook")
    (sample_heap (PStr "1990-01-01") (PStr "1000"))
  = (Ok (delegate None 1%positive), sample_heap (PStr "1990-01-01") (PStr "1000"))
  /\ response_sessionAttributes (delegate None 1%positive)
     = sessionAttributes (sample_request "DialogCodeHook").
Proof.
  split; [exact sample_delegate_run |].
  exact (lambda_handler_session_attributes _ _ _ _ _ sample_delegate_run).
Defined.

Lemma lambda_handler_response_kind_witness :
  lambda_handler sample_world (sample_request "DialogCodeHook")
    (sample_heap (PStr "2010-01-01") (PStr "-1"))
  = (Ok (elicit_slot None "convertCAD" 1%positive (Some "birthday")
           {| contentType := "PlainText"; content := birthday_message |}),
     <[1%positive := <[Some "birthday" := PNone]>
                       (load 1%positive (sample_heap (PStr "2010-01-01") (PStr "-1")))]>
       (sample_heap (PStr "2010-01-01") (PStr "-1")))
  /\ (invocationSource (sample_request "DialogCodeHook") = "DialogCodeHook"
      /\ "convertCAD" = "convertCAD"
      /\ 1%positive = get_slots (sample_request "DialogCodeHook")
      /\ (Some "birthday" = Some "birthday" \/ Some "birthday" = Some "cadAmount")).
Proof.
  split; [exact sample_elicit_run |].
  exact (lambda_handler_response_kind _ _ _ _ _ sample_elicit_run).
Defined.

Lemma validation_ignores_price_witness :
  let w' := {| now := sample_now; price_reply := Raise RequestError |} in
  let req := sample_request "DialogCodeHook" in
  let h := sample_heap (PStr "1990-01-01") (PStr "1000") in
  invocationSource req = "DialogCodeHook"
  /\ now sample_world = now w'
  /\ convert_cad sample_world req h = convert_cad w' req h.
Proof.
  intros w' req h.
  assert (Hs : invocationSource req = "DialogCodeHook") by reflexivity.
  assert (Hn : now sample_world = now w') by reflexivity.
  split; [exact Hs |]. split; [exact Hn |].
  exact (validation_ignores_price sample_world w' req h Hs Hn).
Defined.

Lemma fulfillment_ignores_birthday_and_clock_witness :
  let w' := {| now := PyDate.mk_datetime 1999 12 31 23 59 59 0;
               price_reply := Ok (PFloat price_50000) |} in
  let req := sample_request "FulfillmentCodeHook" in
  let h := sample_heap (PStr "1990-01-01") (PStr "-5") in
  let h' := sample_heap (PStr "not a date") (PStr "-5") in
  invocationSource req <> "DialogCodeHook"
  /\ price_reply sample_world = price_reply w'
  /\ fst (convert_cad sample_world req h) = fst (convert_cad w' req h')
  /\ snd (convert_cad sample_world req h) = h
  /\ snd (convert_cad w' req h') = h'.
Proof.
  intros w' req h h'.
  assert (Hs : invocationSource req <> "DialogCodeHook") by (cbn; discriminate).
  assert (Hp : price_reply sample_world = price_reply w') by reflexivity.
  split; [exact Hs |]. split; [exact Hp |].
  exact (fulfillment_ignores_birthday_and_clock sample_world w' req h h' _ _ _ Hs Hp
           (sample_heap_birthday _ _ _) (sample_heap_birthday _ _ _)
           (sample_heap_amount _ _ _) (sample_heap_amount _ _ _)).
Defined.


Lemma convert_cad_nan_message_witness :
  let req := sample_request "FulfillmentCodeHook" in
  let h := sample_heap (PStr "1990-01-01") (PStr "a lot") in
  invocationSource req <> "DialogCodeHook"
  /\ get_btcprice sample_world = Ok price_50000
  /\ PyFloat.is_zero price_50000 = false
  /\ (PyFloat.of_string "a lot" = None \/ price_50000 = S754_nan)
  /\ convert_cad sample_world req h =
       (Ok (close None "Fulfilled"
              {| contentType := "PlainText";
                 content := close_prefix ++ "nan" ++ close_middle ++ "a lot"
                              ++ close_suffix |}),
        h).
Proof.
  intros req h.
  assert (Hs : invocationSource req <> "DialogCodeHook") by (cbn; discriminate).
  assert (Hp : get_btcprice sample_world = Ok price_50000) by reflexivity.
  assert (Hz : PyFloat.is_zero price_50000 = false) by reflexivity.
  assert (Hn : PyFloat.of_string "a lot" = None \/ price_50000 = S754_nan)
    by (left; vm_compute; reflexivity).
  repeat (split; [assumption |]).
  exact (convert_cad_nan_message sample_world req h _ _ _ Hs
           (sample_heap_birthday _ _ _) (sample_heap_amount _ _ _) Hp Hz Hn).
Defined.

Lemma convert_cad_absent_amount_witness :
  let req := sample_request "FulfillmentCodeHook" in
  let h := sample_heap (PStr "1990-01-01") PNone in
  invocationSource req <> "DialogCodeHook"
  /\ convert_cad {| now := sample_now; price_reply := Raise RequestError |} req h
     = (Raise TypeError, h).
Proof.
  intros req h.
  assert (Hs : invocationSource req <> "DialogCodeHook") by (cbn; discriminate).
  split; [exact Hs |].
  exact (convert_cad_absent_amount _ req h _ Hs
           (sample_heap_birthday _ _ _) (sample_heap_amount _ _ _)).
Defined.

Lemma convert_cad_price_failure_witness :
  let w := {| now := sample_now; price_reply := Raise RequestError |} in
  let req := sample_request "FulfillmentCodeHook" in
  let h := sample_heap (PStr "1990-01-01") (PStr "1000") in
  invocationSource req <> "DialogCodeHook"
  /\ PStr "1000" <> PNone
  /\ price_reply w = Raise RequestError
  /\ convert_cad w req h = (Raise RequestError, h).
Proof.
  intros w req h.
  assert (Hs : invocationSource req <> "DialogCodeHook") by (cbn; discriminate).
  assert (Ha : PStr "1000" <> PNone) by discriminate.
  assert (Hp : price_reply w = Raise RequestError) by reflexivity.
  repeat (split; [assumption |]).
  exact (convert_cad_price_failure w req h _ _ _ Hs
           (sample_heap_birthday _ _ _) (sample_heap_amount _ _ _) Ha Hp).
Defined.

Lemma convert_cad_zero_price_witness :
  let w := {| now := sample_now; price_reply := Ok (PStr "-0.0") |} in
  let req := sample_request "FulfillmentCodeHook" in
  let h := sample_heap (PStr "1990-01-01") (PStr "abc") in
  invocationSource req <> "DialogCodeHook"
  /\ PStr "abc" <> PNone
  /\ get_btcprice w = Ok (S754_zero true)
  /\ PyFloat.is_zero (S754_zero true) = true
  /\ convert_cad w req h = (Raise ZeroDivisionError, h).
Proof.
  intros w req h.
  assert (Hs : invocationSource req <> "DialogCodeHook") by (cbn; discriminate).
  assert (Ha : PStr "abc" <> PNone) by discriminate.
  assert (Hp : get_btcprice w = Ok (S754_zero true)) by (vm_compute; reflexivity).
  assert (Hz : PyFloat.is_zero (S754_zero true) = true) by reflexivity.
  repeat (split; [assumption |]).
  exact (convert_cad_zero_price w req h _ _ _ Hs
           (sample_heap_birthday _ _ _) (sample_heap_amount _ _ _) Ha Hp Hz).
Defined.

(** ** Properties of loop_dee_loop.py *)

Module LoopDeeLoopFacts.
Import LoopDeeLoop.

Lemma while_run_all_yes n :
  while_run "y" (repeat "y" n) = (greetings (S n), EOFError).
Proof.
  induction n as [|n IH]; [reflexivity |].
  cbn [repeat while_run String.eqb Ascii.eqb Bool.eqb].
  rewrite IH. reflexivity.
Qed.

Lemma while_run_stops n answer rest :
  answer <> "y" ->
  while_run "y" (repeat "y" n ++ answer :: rest)%list = (greetings (S n), Finished).
Proof.
  intros Hno. induction n as [|n IH].
  - cbn [repeat app while_run String.eqb Ascii.eqb Bool.eqb].
    assert (E : while_run answer rest = ([], Finished)).
    { destruct rest; cbn [while_run];
        destruct (String.eqb_spec answer "y"); try reflexivity; contradiction. }
    rewrite E. reflexivity.
  - cbn [repeat app while_run String.eqb Ascii.eqb Bool.eqb].
    rewrite IH. reflexivity.
Qed.

Lemma script_while answers :
  script answers =
    ((loops_transcript ++ fst (while_run "y" answers))%list,
     snd (while_run "y" answers)).
Proof.
  unfold script. destruct (while_run "y" answers) as [out e]. reflexivity.
Qed.

(** X19. When the answers are [n] times "y" and then another answer, the
    script prints the output of its five [for] loops, then "Hi!" and the
    prompt [n + 1] times, and ends; the answers after that one are not
    read. *)
Theorem script_stops_at_first_other_answer n answer rest :
  answer <> "y" ->
  script (repeat "y" n ++ answer :: rest)%list
  = ((loops_transcript ++ greetings (S n))%list, Finished).
Proof.
  intros Hno. rewrite script_while, (while_run_stops _ _ _ Hno). reflexivity.
Qed.

Lemma script_stops_at_first_other_answer_witness :
  "n" <> "y"
  /\ script ["y"; "y"; "n"; "y"] = ((loops_transcript ++ greetings 3)%list, Finished).
Proof.
  assert (H : "n" <> "y") by discriminate.
  split; [exact H |].
  exact (script_stops_at_first_other_answer 2 "n" ["y"] H).
Defined.

(** X20. When every answer is "y", the script greets once more than there
    are answers and ends with the [EOFError] of the [input] that finds
    none. *)
Theorem script_runs_out_of_answers n :
  script (repeat "y" n) = ((loops_transcript ++ greetings (S n))%list, EOFError).
Proof. rewrite script_while, while_run_all_yes. reflexivity. Qed.

End LoopDeeLoopFacts.
